(** * MemeMeow HTTP API ([api.py]): a shallow embedding and its properties

    The file embeds the request/response layer of [api.py]: the result
    post-processor [search_result_postprocess] and the handlers of
    [POST /search], [GET /libs_manifest], [POST /generate-cache] and
    [PUT /api-config].

    Python strings are [string]s, Python exceptions are values of [exn]
    carried by the [outcome] monad, and the collaborators the module imports
    (the search engine, the community service, the configuration store, the
    file system) are interfaces given as type classes, so that every theorem
    holds for every behaviour of those collaborators.  The library functions
    the module calls ([os.path], [re], [repr]) are interfaces as well, each
    with an executable instance used to run the model on concrete inputs. *)

From Stdlib Require Import String Ascii List ZArith Bool Lia.
Import ListNotations.
Local Open Scope list_scope.
Local Open Scope string_scope.

(** ** Python values, exceptions and outcomes *)

Module Py.

(** The exception classes the module can meet.  All of them derive from
    [Exception]; [FileNotFoundError] and [JSONDecodeError] are the two
    that [get_libs_manifest] tells apart. *)
Inductive exn_class : Type :=
| FileNotFoundError
| JSONDecodeError
| TypeError
| IndexError
| ValueError
| AttributeError
| ReError
| OtherError.

(** An exception instance: its class and the text [str(e)] gives. *)
Record exn : Type := mkExn { exn_cls : exn_class; exn_str : string }.

Definition exn_class_eqb (a b : exn_class) : bool :=
  match a, b with
  | FileNotFoundError, FileNotFoundError
  | JSONDecodeError, JSONDecodeError
  | TypeError, TypeError
  | IndexError, IndexError
  | ValueError, ValueError
  | AttributeError, AttributeError
  | ReError, ReError
  | OtherError, OtherError => true
  | _, _ => false
  end.

(** The result of a call that can raise. *)
Inductive outcome (A : Type) : Type :=
| Return (a : A)
| Raise (e : exn).
Arguments Return {A} a.
Arguments Raise {A} e.

Definition bind {A B : Type} (m : outcome A) (k : A -> outcome B) : outcome B :=
  match m with
  | Return a => k a
  | Raise e => Raise e
  end.

(** A raw search hit: a path, or the pair [(path, sha256)] the engine
    returns when asked for hashes. *)
Inductive pyval : Type :=
| PStr (s : string)
| PPair (path hash : string).

(** Truthiness of an [Optional[str]]: [None] and the empty string are
    false. *)
Definition truthy (o : option string) : bool :=
  match o with
  | Some (String _ _) => true
  | _ => false
  end.

(** [f'{o}'] for an [Optional[str]]. *)
Definition format_opt (o : option string) : string :=
  match o with
  | Some s => s
  | None => "None"
  end.

(** [repr] of a [str], needed when a tuple is formatted. *)
Class Repr : Type := { repr : string -> string }.

(** [f'{v}'], that is [str(v)]. *)
Definition format `{Repr} (v : pyval) : string :=
  match v with
  | PStr s => s
  | PPair a b => "(" ++ repr a ++ ", " ++ repr b ++ ")"
  end.

(** [s.endswith(suffix)] *)
Definition endswith (s suffix : string) : bool :=
  let n := String.length s in
  let m := String.length suffix in
  (m <=? n)%nat && (substring (n - m) m s =? suffix).

(** [s[i]] for [0 <= i].  The strings of the model are byte strings, so
    the index is Python's on ASCII text. *)
Definition index (s : string) (i : nat) : outcome string :=
  match String.get i s with
  | Some c => Return (String c EmptyString)
  | None => Raise (mkExn IndexError "string index out of range")
  end.

(** [s[:n]] and [s[n:]] for [0 <= n] *)
Fixpoint take (n : nat) (s : string) : string :=
  match n, s with
  | S k, String c r => String c (take k r)
  | _, _ => EmptyString
  end.

Fixpoint drop (n : nat) (s : string) : string :=
  match n, s with
  | S k, String _ r => drop k r
  | _, _ => s
  end.

Fixpoint rfind_from (c : ascii) (s : string) (i last : Z) : Z :=
  match s with
  | EmptyString => last
  | String a r => rfind_from c r (i + 1) (if (a =? c)%char then i else last)
  end.

(** [s.rfind(c)]: the last index of [c], or [-1]. *)
Definition rfind (c : ascii) (s : string) : Z := rfind_from c s 0 (-1).

(** [s.split(sep)] for a one-character separator. *)
Fixpoint split (sep : ascii) (s : string) : list string :=
  match s with
  | EmptyString => [EmptyString]
  | String c r =>
      if (c =? sep)%char then EmptyString :: split sep r
      else match split sep r with
           | h :: t => String c h :: t
           | [] => [String c EmptyString]
           end
  end.

(** [sep.join(parts)] *)
Fixpoint join (sep : string) (parts : list string) : string :=
  match parts with
  | [] => EmptyString
  | [p] => p
  | p :: rest => p ++ sep ++ join sep rest
  end.

Definition nonempty (s : string) : bool :=
  match s with
  | EmptyString => false
  | String _ _ => true
  end.

Fixpoint contains_char (c : ascii) (s : string) : bool :=
  match s with
  | EmptyString => false
  | String a r => (a =? c)%char || contains_char c r
  end.

(** *** An executable [repr]

    CPython's [unicode_repr] on strings of code points below 128; a byte
    from 128 up is copied, which is what CPython does with a printable
    character. *)
Definition hex_digit (n : nat) : ascii :=
  nth n ["0"; "1"; "2"; "3"; "4"; "5"; "6"; "7"; "8"; "9";
         "a"; "b"; "c"; "d"; "e"; "f"]%char "0"%char.

Definition dquote : ascii := ascii_of_nat 34.
Definition squote : ascii := ascii_of_nat 39.
Definition backslash : ascii := ascii_of_nat 92.

Definition repr_char (quote c : ascii) : string :=
  let n := nat_of_ascii c in
  if (c =? quote)%char || (c =? backslash)%char then String backslash (String c EmptyString)
  else if (n =? 9)%nat then String backslash "t"
  else if (n =? 10)%nat then String backslash "n"
  else if (n =? 13)%nat then String backslash "r"
  else if (n <? 32)%nat || (n =? 127)%nat then
    String backslash (String "x" (String (hex_digit (n / 16)) (String (hex_digit (n mod 16)) EmptyString)))
  else String c EmptyString.

Fixpoint repr_body (quote : ascii) (s : string) : string :=
  match s with
  | EmptyString => EmptyString
  | String c r => repr_char quote c ++ repr_body quote r
  end.

Definition repr_ascii (s : string) : string :=
  let quote := if contains_char squote s && negb (contains_char dquote s)
               then dquote else squote in
  String quote (repr_body quote s ++ String quote EmptyString).

Definition ascii_repr : Repr := {| repr := repr_ascii |}.

End Py.

Import Py.

Notation "x <- m ;; k" := (Py.bind m (fun x => k))
  (at level 61, m at next level, right associativity).

(** ** [os.path] *)

(** The three functions of [os.path] the post-processor calls.  Which
    module stands behind [os.path] depends on the platform, so it is an
    interface here. *)
Class OsPath : Type := {
  relpath : string -> string -> outcome string;
  basename : string -> string;
  splitext : string -> string * string
}.

(** [posixpath], the [os.path] of a POSIX system, as an instance.  The
    working directory [os.getcwd()] is a parameter. *)
Module Posixpath.

Definition sep : ascii := "/"%char.
Definition extsep : ascii := "."%char.

Definition isabs (p : string) : bool :=
  match p with
  | String c _ => (c =? sep)%char
  | EmptyString => false
  end.

(** [posixpath.join(a, b)] *)
Definition join2 (a b : string) : string :=
  if isabs b then b
  else if negb (nonempty a) || endswith a "/" then a ++ b
  else a ++ "/" ++ b.

(** [posixpath.basename]: the text after the last slash. *)
Definition basename (p : string) : string :=
  let i := (rfind sep p + 1)%Z in
  drop (Z.to_nat i) p.

(** The [while] loop of [genericpath._splitext]: is there a character
    other than a dot at an index in [filenameIndex, dotIndex)? *)
Fixpoint has_non_dot (p : string) (filenameIndex : Z) (steps : nat) : bool :=
  match steps with
  | O => false
  | S k =>
      match String.get (Z.to_nat filenameIndex) p with
      | Some c =>
          if negb (c =? extsep)%char then true
          else has_non_dot p (filenameIndex + 1) k
      | None => true
      end
  end.

(** [posixpath.splitext] *)
Definition splitext (p : string) : string * string :=
  let sepIndex := rfind sep p in
  let dotIndex := rfind extsep p in
  if (sepIndex <? dotIndex)%Z
     && has_non_dot p (sepIndex + 1) (Z.to_nat (dotIndex - (sepIndex + 1)))
  then (take (Z.to_nat dotIndex) p, drop (Z.to_nat dotIndex) p)
  else (p, EmptyString).

Definition starts_with_slashes (n : nat) (p : string) : bool :=
  take n p =? take n "///".

Definition is_nil {A : Type} (l : list A) : bool :=
  match l with
  | [] => true
  | _ :: _ => false
  end.

(** The body of the loop of [posixpath.normpath] over the components. *)
Definition normpath_step (initial_slashes : nat) (new_comps : list string)
    (comp : string) : list string :=
  if (comp =? EmptyString) || (comp =? ".") then new_comps
  else if negb (comp =? "..")
          || ((initial_slashes =? 0)%nat && is_nil new_comps)
          || (negb (is_nil new_comps) && (last new_comps EmptyString =? ".."))
  then (new_comps ++ [comp])%list
  else if negb (is_nil new_comps) then removelast new_comps
  else new_comps.

Fixpoint make_slashes (n : nat) : string :=
  match n with
  | O => EmptyString
  | S k => String sep (make_slashes k)
  end.

(** [posixpath.normpath] *)
Definition normpath (path : string) : string :=
  if negb (nonempty path) then "."
  else
    let initial_slashes :=
      if isabs path then
        if starts_with_slashes 2 path && negb (starts_with_slashes 3 path)
        then 2%nat else 1%nat
      else 0%nat in
    let comps := fold_left (normpath_step initial_slashes) (split sep path) [] in
    let joined := make_slashes initial_slashes ++ join "/" comps in
    if nonempty joined then joined else ".".

(** [posixpath.abspath] *)
Definition abspath (cwd path : string) : string :=
  if isabs path then normpath path else normpath (join2 cwd path).

(** The length of [genericpath.commonprefix] of two lists. *)
Fixpoint common_prefix_len (a b : list string) : nat :=
  match a, b with
  | x :: a', y :: b' => if x =? y then S (common_prefix_len a' b') else O
  | _, _ => O
  end.

(** [posixpath.relpath(path, start)].  Its components hold no slash, so
    the final [join] of [rel_list] is a join on the separator. *)
Definition relpath (cwd path start : string) : outcome string :=
  if negb (nonempty path) then Raise (mkExn ValueError "no path specified")
  else
    let start_list := filter nonempty (split sep (abspath cwd start)) in
    let path_list := filter nonempty (split sep (abspath cwd path)) in
    let i := common_prefix_len start_list path_list in
    let rel_list := (repeat ".." (List.length start_list - i) ++ skipn i path_list)%list in
    if is_nil rel_list then Return "." else Return (join "/" rel_list).

Definition instance (cwd : string) : OsPath :=
  Build_OsPath (relpath cwd) basename splitext.

End Posixpath.

(** ** [re] *)

(** The two functions of [re] the development needs: [re.sub(pattern, repl,
    string)], which the post-processor calls, and [re.search(pattern,
    string) is not None], which says that the pattern has a match.  Both
    raise [re.error] on a pattern that does not compile. *)
Class Regex : Type := {
  re_sub : string -> string -> string -> outcome string;
  re_search : string -> string -> outcome bool
}.

(** An executable engine for the patterns without metacharacters, which
    match their own text and nothing else.  On such a pattern it is
    [re.sub] and [re.search]: one scan from the left, a match replaced and
    skipped, the text after it scanned on. *)
Module Literal.

Definition metachars : string := ".^$*+?{}[]|()" ++ String backslash EmptyString.

Fixpoint is_literal (pattern : string) : bool :=
  match pattern with
  | EmptyString => true
  | String c r => negb (contains_char c metachars) && is_literal r
  end.

(** [s.startswith(p)] *)
Fixpoint startswith (s p : string) {struct p} : bool :=
  match p, s with
  | EmptyString, _ => true
  | String a p', String b s' => (a =? b)%char && startswith s' p'
  | String _ _, EmptyString => false
  end.

(** The scan of [sub]: [skip] characters of a match found earlier are
    still to be dropped.  The empty pattern matches before every
    character and at the end. *)
Fixpoint sub_scan (pattern repl : string) (skip : nat) (s : string) : string :=
  match s with
  | EmptyString =>
      match skip, pattern with
      | O, EmptyString => repl
      | _, _ => EmptyString
      end
  | String c r =>
      match skip with
      | S k => sub_scan pattern repl k r
      | O =>
          if startswith s pattern then
            match pattern with
            | EmptyString => repl ++ String c (sub_scan pattern repl 0 r)
            | String _ p' => repl ++ sub_scan pattern repl (String.length p') r
            end
          else String c (sub_scan pattern repl 0 r)
      end
  end.

Definition sub (pattern repl s : string) : outcome string :=
  Return (sub_scan pattern repl 0 s).

Fixpoint occurs (pattern s : string) : bool :=
  startswith s pattern ||
  match s with
  | EmptyString => false
  | String _ r => occurs pattern r
  end.

Definition search (pattern s : string) : outcome bool :=
  Return (occurs pattern s).

Definition instance : Regex := {| re_sub := sub; re_search := search |}.

End Literal.

(** ** Configuration *)

(** Modelled from the spec: the [urls] group of the API configuration that
    [load_config()] returns ([config/api_settings.py] is not part of the
    sources).  [return_type] is kept a string, since [api.py] compares it
    with string literals; the three optional settings are [Optional[str]]. *)
Record UrlsConfig : Type := {
  return_type : string;
  path_replace_regex : option string;
  url_prefix : option string;
  url_postfix : option string
}.

(** The two module-level objects the post-processor reads:
    [api_config.urls] and [Config().base_dir]. *)
Record Globals : Type := {
  urls : UrlsConfig;
  base_dir : string
}.

(** ** The result post-processor *)

Section Postprocess.

Context {os_path : OsPath} {re : Regex} {py_repr : Repr}.
Variable g : Globals.

(** Lines 51-56: the branch on [api_config.urls.return_type].  Under
    [rel_path] a pair makes [os.path.relpath] raise [TypeError]; under
    [sha256] a plain string [v] is indexed as well: [v[1]] and [v[0]]
    are then one-character strings. *)
Definition select_identifier (v : pyval) : outcome pyval :=
  if return_type (urls g) =? "abs_path" then Return v
  else if return_type (urls g) =? "rel_path" then
    match v with
    | PStr p => r <- relpath p (base_dir g) ;; Return (PStr r)
    | PPair _ _ =>
        Raise (mkExn TypeError "expected str, bytes or os.PathLike object, not tuple")
    end
  else if return_type (urls g) =? "sha256" then
    match v with
    | PPair path hash => Return (PStr (hash ++ snd (splitext (basename path))))
    | PStr s =>
        v1 <- index s 1 ;;
        v0 <- index s 0 ;;
        Return (PStr (v1 ++ snd (splitext (basename v0))))
    end
  else Return v.

(** Lines 57-59: [re.sub] with the empty replacement when a pattern is
    set. *)
Definition strip_regex (v : pyval) : outcome pyval :=
  let reg_pattern := path_replace_regex (urls g) in
  if truthy reg_pattern then
    match v with
    | PStr s => r <- re_sub (format_opt reg_pattern) EmptyString s ;; Return (PStr r)
    | PPair _ _ =>
        Raise (mkExn TypeError "expected string or bytes-like object, got 'tuple'")
    end
  else Return v.

(** Lines 61-62: [f'{api_config.urls.url_prefix}/{v}'] *)
Definition add_prefix (v : pyval) : pyval :=
  if truthy (url_prefix (urls g))
  then PStr (format_opt (url_prefix (urls g)) ++ "/" ++ format v)
  else v.

(** Lines 63-65: the text appended is [api_config.urls.url_prefix]. *)
Definition add_postfix (v : pyval) : outcome pyval :=
  if truthy (url_postfix (urls g)) then
    match v with
    | PStr s =>
        if negb (endswith s (format_opt (url_postfix (urls g))))
        then Return (PStr (s ++ "/" ++ format_opt (url_prefix (urls g))))
        else Return v
    | PPair _ _ =>
        Raise (mkExn AttributeError "'tuple' object has no attribute 'endswith'")
    end
  else Return v.

(** The body of the [for] loop, lines 51-65. *)
Definition loop_body (v : pyval) : outcome pyval :=
  v <- select_identifier v ;;
  v <- strip_regex v ;;
  add_postfix (add_prefix v).

(** The loop of lines 50-67 with its accumulator [ret]. *)
Fixpoint postprocess_loop (results ret : list pyval) : outcome (list pyval) :=
  match results with
  | [] => Return ret
  | v :: rest =>
      v' <- loop_body v ;;
      postprocess_loop rest (ret ++ [v'])%list
  end.

Definition search_result_postprocess (results : list pyval) : outcome (list pyval) :=
  postprocess_loop results [].

End Postprocess.

(** ** Requests, responses and the state the handlers work on *)

(** JSON documents: response bodies and the parsed manifest. *)
#[warnings="-register-all"]
Inductive json : Type :=
| JNull
| JBool (b : bool)
| JNum (n : Z)
| JStr (s : string)
| JArr (items : list json)
| JObj (members : list (string * json)).

(** What a handler hands back to the framework: a body, an
    [HTTPException] it raised, or an exception it did not catch. *)
Inductive response : Type :=
| Ok (body : json)
| HTTPException (status_code : nat) (detail : string)
| Unhandled (e : exn).

(** What the client receives.  An [HTTPException] becomes a JSON body
    with its status; a body that fails validation never reaches the
    handler and is answered with 422; an unhandled exception is answered
    with 500. *)
Inductive http_response : Type :=
| JsonResponse (status : nat) (body : json)
| ValidationError
| InternalServerError.

Definition status_of (r : http_response) : nat :=
  match r with
  | JsonResponse status _ => status
  | ValidationError => 422
  | InternalServerError => 500
  end.

Definition render (r : response) : http_response :=
  match r with
  | Ok body => JsonResponse 200 body
  | HTTPException status_code detail => JsonResponse status_code (JObj [("detail", JStr detail)])
  | Unhandled _ => InternalServerError
  end.

Definition message (text : string) : json := JObj [("message", JStr text)].

(** A result as the response encoder writes it: a tuple becomes an
    array. *)
Definition jsonable (v : pyval) : json :=
  match v with
  | PStr s => JStr s
  | PPair a b => JArr [JStr a; JStr b]
  end.

(** [class SearchRequestEnhanced(SearchRequest)], lines 33-39. *)
Module SearchRequestEnhanced.
Record t : Type := {
  query : string;
  n_results : Z;
  resource_pack_uuids : list string;
  ai_search : bool
}.
End SearchRequestEnhanced.

(** The body of a [POST /search] as it arrives: each member is there or
    not, and a member that is there has the type of its field. *)
Module SearchBody.
Record t : Type := {
  query : option string;
  n_results : option Z;
  resource_pack_uuids : option (list string);
  ai_search : option bool
}.
End SearchBody.



(** [class ConfigUpdate], lines 41-43. *)
Module ConfigUpdate.
Record t : Type := {
  api_key : option string;
  base_url : option string
}.
End ConfigUpdate.

(** [search_engine.embedding_service], of which the handlers read and
    write two attributes. *)
Module EmbeddingService.
Record t : Type := {
  api_key : option string;
  base_url : option string
}.
End EmbeddingService.

(** The arguments of [search_engine.search], line 88-95. *)
Record SearchArgs : Type := {
  arg_query : string;
  arg_n_results : Z;
  arg_resource_pack_uuids : list string;
  arg_api_key : option string;
  arg_use_llm : bool;
  arg_return_type : string
}.

(** The manifest file the handler opens. *)
Inductive file_state : Type :=
| Absent
| Unreadable (e : exn)
| Content (text : string).

(** [os.path.exists] *)
Definition path_exists (f : file_state) : bool :=
  match f with
  | Absent => false
  | _ => true
  end.

(** [open(path, 'r', encoding='utf-8')] and the read of the text. *)
Definition open_read (f : file_state) : outcome string :=
  match f with
  | Absent => Raise (mkExn FileNotFoundError "[Errno 2] No such file or directory")
  | Unreadable e => Raise e
  | Content text => Return text
  end.

(** A task queued on [BackgroundTasks]: the only one is
    [search_engine.generate_cache]. *)
Inductive task : Type :=
| GenerateCacheTask.

(** The collaborators of [api.py], over a state [X] of their own (the
    engine's index and cache, the configuration store, the file system):
    [search_engine.has_cache()], [search_engine.search(...)],
    [config.save()], [config.api.embedding_models.api_key],
    [CommunityService().reload_community_info()], the manifest file at
    [Config().temp_dir/all_manifest.json], and [json.load]. *)
Class Collaborators (X : Type) : Type := {
  has_cache : X -> bool;
  search : SearchArgs -> EmbeddingService.t -> X -> outcome (list pyval) * X;
  config_save : EmbeddingService.t -> X -> outcome unit * X;
  config_embedding_api_key : X -> option string;
  reload_community_info : X -> outcome unit * X;
  manifest_file : X -> file_state;
  json_load : string -> outcome json
}.

(** The state a handler runs in. *)
Record world (X : Type) : Type := mkWorld {
  embedding_service : EmbeddingService.t;
  ext : X
}.
Arguments mkWorld {X} _ _.
Arguments embedding_service {X} _.
Arguments ext {X} _.

(** ** The handlers *)

Section Handlers.

Context {os_path : OsPath} {re : Regex} {py_repr : Repr}.
Context {X : Type} {collab : Collaborators X}.
Variable g : Globals.

(** [POST /search], lines 84-99. *)
Definition search_images (request : SearchRequestEnhanced.t) (w : world X)
  : response * world X :=
  let args :=
    {| arg_query := SearchRequestEnhanced.query request;
       arg_n_results := SearchRequestEnhanced.n_results request;
       arg_resource_pack_uuids := SearchRequestEnhanced.resource_pack_uuids request;
       arg_api_key := config_embedding_api_key (ext w);
       arg_use_llm := SearchRequestEnhanced.ai_search request;
       arg_return_type :=
         if return_type (urls g) =? "sha256" then "hash" else "default" |} in
  let '(found, x) := search args (embedding_service w) (ext w) in
  let w' := mkWorld (embedding_service w) x in
  match (results <- found ;; search_result_postprocess g results) with
  | Return out => (Ok (JObj [("results", JArr (map jsonable out))]), w')
  | Raise e => (HTTPException 500 (exn_str e), w')
  end.


(** The [try] block of [get_libs_manifest], lines 113-122, on the
    manifest file as it is when the block starts. *)
Definition read_manifest (f : file_state) : response :=
  match (text <- open_read f ;; json_load text) with
  | Return manifest_data => Ok manifest_data
  | Raise e =>
      if exn_class_eqb (exn_cls e) FileNotFoundError
      then HTTPException 404 "Manifest file not found"
      else if exn_class_eqb (exn_cls e) JSONDecodeError
      then HTTPException 500 "Invalid JSON format in manifest file"
      else HTTPException 500 (exn_str e)
  end.

(** [GET /libs_manifest], lines 106-122.  The rebuild runs before the
    [try], so what it raises is not caught. *)
Definition get_libs_manifest (w : world X) : response * world X :=
  let '(rebuilt, x) :=
    if negb (path_exists (manifest_file (ext w)))
    then reload_community_info (ext w)
    else (Return tt, ext w) in
  let w' := mkWorld (embedding_service w) x in
  match rebuilt with
  | Raise e => (Unhandled e, w')
  | Return _ => (read_manifest (manifest_file x), w')
  end.

(** [POST /generate-cache], lines 124-130. *)
Definition generate_cache (background_tasks : list task) (w : world X)
  : response * list task :=
  if negb (has_cache (ext w))
  then (Ok (message "Cache generation started"),
        (background_tasks ++ [GenerateCacheTask])%list)
  else (Ok (message "Cache already exists"), background_tasks).

(** The two assignments of [update_config], lines 146-149: a field of
    the update is written when it is truthy. *)
Definition apply_update (update : ConfigUpdate.t) (svc : EmbeddingService.t)
  : EmbeddingService.t :=
  let svc :=
    if truthy (ConfigUpdate.api_key update)
    then {| EmbeddingService.api_key := ConfigUpdate.api_key update;
            EmbeddingService.base_url := EmbeddingService.base_url svc |}
    else svc in
  if truthy (ConfigUpdate.base_url update)
  then {| EmbeddingService.api_key := EmbeddingService.api_key svc;
          EmbeddingService.base_url := ConfigUpdate.base_url update |}
  else svc.

(** [PUT /api-config], lines 142-153. *)
Definition update_config (update : ConfigUpdate.t) (w : world X)
  : response * world X :=
  let svc := apply_update update (embedding_service w) in
  let '(saved, x) := config_save svc (ext w) in
  match saved with
  | Return _ => (Ok (message "Config updated successfully"), mkWorld svc x)
  | Raise e => (HTTPException 500 (exn_str e), mkWorld svc x)
  end.

End Handlers.

(** ** The properties as the specification words them *)

(** An element-wise map in the [outcome] monad: the first failure ends
    it. *)
Fixpoint map_outcome {A B : Type} (f : A -> outcome B) (l : list A)
  : outcome (list B) :=
  match l with
  | [] => Return []
  | a :: rest =>
      b <- f a ;;
      bs <- map_outcome f rest ;;
      Return (b :: bs)
  end.

(** The pattern has a match somewhere in [s]. *)
Definition has_match {re : Regex} (pattern s : string) : Prop :=
  re_search pattern s = Return true.

(** The specification's wording of the strip step on one input list: with
    a pattern configured, no output identifier holds a match of it. *)
Definition no_match_survives {os_path : OsPath} {re : Regex} {py_repr : Repr}
    (g : Globals) (results : list pyval) : Prop :=
  forall pattern out,
    path_replace_regex (urls g) = Some pattern ->
    truthy (Some pattern) = true ->
    search_result_postprocess g results = Return out ->
    forall s, In (PStr s) out -> ~ has_match pattern s.


(** ** Concrete collaborators and configurations for the examples *)

Module Scenario.

(** A scripted environment: what each collaborator will answer. *)
Record t : Type := {
  cache_built : bool;
  hits : outcome (list pyval);
  save_error : option exn;
  manifest : file_state;
  rebuild_error : option exn;
  manifest_after_rebuild : file_state
}.

(** A parser that knows the empty object; any other text is malformed
    for it, as the text of the examples is for [json.load]. *)
Definition parse (text : string) : outcome json :=
  if text =? "{}" then Return (JObj [])
  else Raise (mkExn JSONDecodeError "Expecting value: line 1 column 1 (char 0)").

Definition rebuild (x : t) : outcome unit * t :=
  match rebuild_error x with
  | Some e => (Raise e, x)
  | None =>
      (Return tt,
       {| cache_built := cache_built x;
          hits := hits x;
          save_error := save_error x;
          manifest := manifest_after_rebuild x;
          rebuild_error := None;
          manifest_after_rebuild := manifest_after_rebuild x |})
  end.

Definition collaborators : Collaborators t :=
  {| has_cache := cache_built;
     search := fun _ _ x => (hits x, x);
     config_save := fun _ x =>
       (match save_error x with
        | Some e => Raise e
        | None => Return tt
        end, x);
     config_embedding_api_key := fun _ => None;
     reload_community_info := rebuild;
     manifest_file := manifest;
     json_load := parse |}.

Definition posix : OsPath := Posixpath.instance "/srv/app".

(** Prefix and postfix configured. *)
Definition decorated : Globals :=
  {| urls := {| return_type := "abs_path";
                path_replace_regex := None;
                url_prefix := Some "https://cdn.example";
                url_postfix := Some "?raw=1" |};
     base_dir := "/srv/app" |}.

(** A two-character strip pattern, nothing else. *)
Definition strip_ab : Globals :=
  {| urls := {| return_type := "abs_path";
                path_replace_regex := Some "ab";
                url_prefix := None;
                url_postfix := None |};
     base_dir := "/srv/app" |}.

(** A one-character strip pattern and a prefix that holds it. *)
Definition strip_under_prefix : Globals :=
  {| urls := {| return_type := "abs_path";
                path_replace_regex := Some "_";
                url_prefix := Some "img_host";
                url_postfix := None |};
     base_dir := "/srv/app" |}.

Definition with_return_type (rt : string) : Globals :=
  {| urls := {| return_type := rt;
                path_replace_regex := None;
                url_prefix := None;
                url_postfix := None |};
     base_dir := "/srv/app" |}.

(** A fresh installation: no cache, no manifest yet, a rebuild that
    writes an empty manifest. *)
Definition fresh : t :=
  {| cache_built := false;
     hits := Return [PStr "/srv/app/data/cat.png"];
     save_error := None;
     manifest := Absent;
     rebuild_error := None;
     manifest_after_rebuild := Content "{}" |}.

(** A full disk: the cache is built, the manifest was cut short, the
    configuration cannot be saved. *)
Definition disk_full : t :=
  {| cache_built := true;
     hits := Return [];
     save_error := Some (mkExn OtherError "[Errno 28] No space left on device");
     manifest := Content "{";
     rebuild_error := None;
     manifest_after_rebuild := Content "{" |}.

(** No network: there is no manifest and the rebuild raises. *)
Definition offline : t :=
  {| cache_built := false;
     hits := Raise (mkExn OtherError "Connection refused");
     save_error := None;
     manifest := Absent;
     rebuild_error := Some (mkExn OtherError "Connection refused");
     manifest_after_rebuild := Absent |}.

(** The rebuild runs and writes nothing. *)
Definition rebuild_writes_nothing : t :=
  {| cache_built := false;
     hits := Return [];
     save_error := None;
     manifest := Absent;
     rebuild_error := None;
     manifest_after_rebuild := Absent |}.

(** The manifest is there and cannot be opened. *)
Definition locked : t :=
  {| cache_built := true;
     hits := Return [];
     save_error := None;
     manifest := Unreadable (mkExn OtherError "[Errno 13] Permission denied");
     rebuild_error := None;
     manifest_after_rebuild := Absent |}.



Definition service : EmbeddingService.t :=
  {| EmbeddingService.api_key := Some "sk-old";
     EmbeddingService.base_url := Some "https://api.example/v1" |}.

(** An engine whose two settings are empty strings. *)
Definition blank_service : EmbeddingService.t :=
  {| EmbeddingService.api_key := Some EmptyString;
     EmbeddingService.base_url := Some EmptyString |}.

End Scenario.

(** ** The rest of the module: [GET /config], start-up, repeated calls *)

(** [search_engine.get_model_name()], which only [GET /config] calls. *)
Class EngineInfo (X : Type) : Type := {
  get_model_name : X -> string
}.

(** [search_engine.generate_cache()] as the start-up block calls it, in
    the foreground. *)
Class EngineBuild (X : Type) : Type := {
  engine_generate_cache : EmbeddingService.t -> X -> outcome unit * X
}.

(** An [Optional[str]] in a JSON body. *)
Definition json_of_opt (o : option string) : json :=
  match o with
  | Some s => JStr s
  | None => JNull
  end.

(** [GET /config], lines 132-140. *)
Definition get_config {X : Type} {info : EngineInfo X} (w : world X)
  : response * world X :=
  (Ok (JObj [("model", JStr (get_model_name (ext w)));
             ("api_key", json_of_opt (EmbeddingService.api_key (embedding_service w)));
             ("base_url", json_of_opt (EmbeddingService.base_url (embedding_service w)))]),
   w).

(** Modelled from the spec: the settings of the API configuration that
    the start-up block reads, [api_mode_config.default_api_key],
    [api_mode_config.default_base_url] and [generate_cache]
    ([config/api_settings.py] is not part of the sources). *)
Record StartupConfig : Type := {
  default_api_key : option string;
  default_base_url : option string;
  generate_cache_at_startup : bool
}.

(** The block under [if __name__ == "__main__"], lines 180-187.  It
    returns when [uvicorn.run] is reached; a cache build that raises ends
    the process before that. *)
Definition main {X : Type} {build : EngineBuild X} (cfg : StartupConfig)
    (w : world X) : outcome unit * world X :=
  let svc := {| EmbeddingService.api_key := default_api_key cfg;
                EmbeddingService.base_url := default_base_url cfg |} in
  if generate_cache_at_startup cfg then
    let '(built, x) := engine_generate_cache svc (ext w) in
    match built with
    | Return _ => (Return tt, mkWorld svc x)
    | Raise e => (Raise e, mkWorld svc x)
    end
  else (Return tt, mkWorld svc (ext w)).

(** [n] calls of [POST /generate-cache] in a row, before any queued task
    has run: the queue of one call is handed to the next. *)
Fixpoint generate_cache_calls {X : Type} {collab : Collaborators X} (n : nat)
    (background_tasks : list task) (w : world X) : list task :=
  match n with
  | O => background_tasks
  | S k => generate_cache_calls k (snd (generate_cache background_tasks w)) w
  end.

(** The arguments [search_images] hands to the engine. *)
Definition search_args_of {X : Type} {collab : Collaborators X} (g : Globals)
    (request : SearchRequestEnhanced.t) (w : world X) : SearchArgs :=
  {| arg_query := SearchRequestEnhanced.query request;
     arg_n_results := SearchRequestEnhanced.n_results request;
     arg_resource_pack_uuids := SearchRequestEnhanced.resource_pack_uuids request;
     arg_api_key := config_embedding_api_key (ext w);
     arg_use_llm := SearchRequestEnhanced.ai_search request;
     arg_return_type :=
       if return_type (urls g) =? "sha256" then "hash" else "default" |}.

(** ** The shapes the post-processor accepts *)

Definition is_str (v : pyval) : bool :=
  match v with
  | PStr _ => true
  | PPair _ _ => false
  end.

(** Does the branch on the return type go through on [v], and is its
    result a string?  [None]: the branch raises. *)
Definition select_shape (g : Globals) (v : pyval) : option bool :=
  if return_type (urls g) =? "abs_path" then Some (is_str v)
  else if return_type (urls g) =? "rel_path" then
    match v with
    | PStr p => if nonempty p then Some true else None
    | PPair _ _ => None
    end
  else if return_type (urls g) =? "sha256" then
    match v with
    | PPair _ _ => Some true
    | PStr s => if (2 <=? String.length s)%nat then Some true else None
    end
  else Some (is_str v).

(** The raw results on which the loop body goes through: the branch on
    the return type does, and what it hands on is a string, or it is a
    pair and neither [re.sub] nor [endswith] is called on it. *)
Definition accepts (g : Globals) (v : pyval) : bool :=
  match select_shape g v with
  | None => false
  | Some str =>
      str
      || (negb (truthy (path_replace_regex (urls g)))
          && (truthy (url_prefix (urls g)) || negb (truthy (url_postfix (urls g)))))
  end.

(** A path component as [normpath] leaves it: not empty, without a
    slash, and neither [.] nor [..]. *)
Definition plain_component (c : string) : bool :=
  nonempty c && negb (contains_char Posixpath.sep c)
  && negb (c =? ".") && negb (c =? "..").

(** An engine that answers with pairs. *)
Definition scenario_hashed : Scenario.t :=
  {| Scenario.cache_built := true;
     Scenario.hits := Return [PPair "/srv/app/data/cat.png" "0f3a9c";
                              PPair "/srv/app/data/README" "77aa01"];
     Scenario.save_error := None;
     Scenario.manifest := Absent;
     Scenario.rebuild_error := None;
     Scenario.manifest_after_rebuild := Absent |}.

(** The configuration [g] with the strip pattern taken out. *)
Definition without_pattern (g : Globals) : Globals :=
  {| urls := {| return_type := return_type (urls g);
                path_replace_regex := None;
                url_prefix := url_prefix (urls g);
                url_postfix := url_postfix (urls g) |};
     base_dir := base_dir g |}.

(** The scripted environment of [Scenario] for the two further
    interfaces: a fixed model name, and a cache build that fails when the
    engine is out of reach. *)
Definition scenario_info : EngineInfo Scenario.t :=
  {| get_model_name := fun _ => "bge-small-zh" |}.

Definition scenario_build : EngineBuild Scenario.t :=
  {| engine_generate_cache := fun _ x =>
       match Scenario.hits x with
       | Raise e => (Raise e, x)
       | Return _ =>
           (Return tt,
            {| Scenario.cache_built := true;
               Scenario.hits := Scenario.hits x;
               Scenario.save_error := Scenario.save_error x;
               Scenario.manifest := Scenario.manifest x;
               Scenario.rebuild_error := Scenario.rebuild_error x;
               Scenario.manifest_after_rebuild := Scenario.manifest_after_rebuild x |})
       end |}.

(** ** Side conditions under which the library models are exact *)

(** The strings of the model are byte strings (UTF-8); on ASCII text
    bytes and characters are the same thing, so indexing and lengths are
    Python's. *)
Definition is_ascii (c : ascii) : bool := (nat_of_ascii c <? 128)%nat.

Fixpoint ascii_only (s : string) : bool :=
  match s with
  | EmptyString => true
  | String c r => is_ascii c && ascii_only r
  end.

(** A raw result whose plain string is ASCII. *)
Definition raw_ascii (v : pyval) : bool :=
  match v with
  | PStr s => ascii_only s
  | PPair _ _ => true
  end.

(** [re.sub] accepts the configured pattern: with the empty replacement
    it returns on every string (the pattern compiles). *)
Definition pattern_compiles {re : Regex} (g : Globals) : Prop :=
  truthy (path_replace_regex (urls g)) = true ->
  forall s, exists r,
    re_sub (format_opt (path_replace_regex (urls g))) EmptyString s = Return r.

(** The engine removes and finds [pattern] as the literal scan does,
    which is what [re] does with a pattern without metacharacters. *)
Definition agrees_with_literal (re : Regex) (pattern : string) : Prop :=
  forall s,
    @re_sub re pattern EmptyString s = Literal.sub pattern EmptyString s
    /\ @re_search re pattern s = Literal.search pattern s.

(** What the prefix step puts in front of an identifier. *)
Definition prefix_text (g : Globals) : string :=
  if truthy (url_prefix (urls g))
  then format_opt (url_prefix (urls g)) ++ "/"
  else EmptyString.

(** * Properties *)

(** ** Strings and outcomes *)

Lemma str_app_assoc (a b c : string) : (a ++ b) ++ c = a ++ b ++ c.
Proof.
  induction a as [|x a IH]; simpl; [reflexivity | now rewrite IH].
Qed.

Lemma str_app_empty_r (a : string) : a ++ EmptyString = a.
Proof.
  induction a as [|x a IH]; simpl; [reflexivity | now rewrite IH].
Qed.

Lemma take_drop (n : nat) (s : string) : take n s ++ drop n s = s.
Proof.
  revert s; induction n as [|n IH]; intros [|c r]; simpl; try reflexivity.
  now rewrite IH.
Qed.

Lemma bind_Return_inv {A B : Type} (m : outcome A) (k : A -> outcome B) (b : B) :
  (x <- m ;; k x) = Return b -> exists a, m = Return a /\ k a = Return b.
Proof.
  destruct m as [a|e]; simpl; intros E; [eauto | discriminate].
Qed.

Lemma map_outcome_Forall2 {A B : Type} (f : A -> outcome B) (l : list A)
    (out : list B) :
  map_outcome f l = Return out <-> Forall2 (fun a b => f a = Return b) l out.
Proof.
  revert out; induction l as [|a l IH]; intros out; simpl.
  - split.
    + intros E; injection E as <-; constructor.
    + intros F; inversion F; reflexivity.
  - split.
    + intros E.
      apply bind_Return_inv in E as (b & Eb & E).
      apply bind_Return_inv in E as (bs & Ebs & E).
      injection E as <-.
      constructor; [exact Eb | now apply IH].
    + intros F; inversion F as [|a' b l' bs Eb Fl]; subst.
      rewrite Eb; simpl.
      apply IH in Fl; rewrite Fl; reflexivity.
Qed.

(** ** The result post-processor *)

Section PostprocessProperties.

Context {os_path : OsPath} {re : Regex} {py_repr : Repr}.
Variable g : Globals.

(** The accumulator of the loop only ever grows at its end. *)
Lemma postprocess_loop_acc (results ret : list pyval) :
  postprocess_loop g results ret =
  (out <- map_outcome (loop_body g) results ;; Return (ret ++ out)%list).
Proof.
  revert ret; induction results as [|v rest IH]; intros ret; simpl.
  - now rewrite app_nil_r.
  - destruct (loop_body g v) as [v'|e]; simpl; [|reflexivity].
    rewrite IH.
    destruct (map_outcome (loop_body g) rest) as [out|e]; simpl; [|reflexivity].
    now rewrite <- app_assoc.
Qed.

Lemma postprocess_as_map (results : list pyval) :
  search_result_postprocess g results = map_outcome (loop_body g) results.
Proof.
  unfold search_result_postprocess.
  rewrite postprocess_loop_acc.
  now destruct (map_outcome (loop_body g) results).
Qed.

Lemma postprocess_pairs (results out : list pyval) :
  search_result_postprocess g results = Return out ->
  Forall2 (fun v o => loop_body g v = Return o) results out.
Proof.
  rewrite postprocess_as_map; apply map_outcome_Forall2.
Qed.

(** C9. The post-processor is the element-wise map of the loop body: it
    returns [out] exactly when [out] pairs off with the input, each
    element being what the loop body returns on the input element at the
    same place; the two lists then have the same length. *)
Theorem search_result_postprocess_elementwise (results : list pyval) :
  search_result_postprocess g results = map_outcome (loop_body g) results
  /\ (forall out,
        search_result_postprocess g results = Return out <->
        Forall2 (fun v o => loop_body g v = Return o) results out)
  /\ (forall out,
        search_result_postprocess g results = Return out ->
        List.length out = List.length results).
Proof.
  split; [apply postprocess_as_map|].
  split; intros out.
  - rewrite postprocess_as_map; apply map_outcome_Forall2.
  - intros R; apply postprocess_pairs in R.
    symmetry; eapply Forall2_length; exact R.
Qed.

(** C2. The identifier selection by return type: [abs_path] hands the
    raw result on as it is, [rel_path] is [os.path.relpath] of the path
    against the base directory, [sha256] is the hash followed by the
    extension of the path's base name, and any other value hands the raw
    result on as it is. *)
Theorem select_identifier_by_return_type :
  (return_type (urls g) = "abs_path" ->
     forall v, select_identifier g v = Return v)
  /\ (return_type (urls g) = "rel_path" ->
        forall p, select_identifier g (PStr p)
                  = (r <- relpath p (base_dir g) ;; Return (PStr r)))
  /\ (return_type (urls g) = "sha256" ->
        forall path hash,
          select_identifier g (PPair path hash)
          = Return (PStr (hash ++ snd (splitext (basename path)))))
  /\ (return_type (urls g) <> "abs_path" ->
      return_type (urls g) <> "rel_path" ->
      return_type (urls g) <> "sha256" ->
        forall v, select_identifier g v = Return v).
Proof.
  unfold select_identifier.
  repeat split.
  - intros -> v; reflexivity.
  - intros -> p; reflexivity.
  - intros -> path hash; reflexivity.
  - intros Na Nr Ns v.
    apply String.eqb_neq in Na, Nr, Ns.
    now rewrite Na, Nr, Ns.
Qed.

(** What the postfix branch writes: the identifier, a slash, and the
    formatted prefix setting. *)
Lemma add_postfix_appends_prefix (s : string) :
  truthy (url_postfix (urls g)) = true ->
  endswith s (format_opt (url_postfix (urls g))) = false ->
  add_postfix g (PStr s)
  = Return (PStr (s ++ "/" ++ format_opt (url_prefix (urls g)))).
Proof.
  intros T E; unfold add_postfix; now rewrite T, E.
Qed.

End PostprocessProperties.

(** On a POSIX system the extension that [sha256] mode keeps is the end of
    the path. *)
Lemma posix_extension_is_suffix (path : string) :
  exists stem,
    path = stem ++ snd (Posixpath.splitext (Posixpath.basename path)).
Proof.
  unfold Posixpath.basename.
  set (i := Z.to_nat (rfind Posixpath.sep path + 1)).
  set (b := drop i path).
  assert (Eb : exists stem, b = stem ++ snd (Posixpath.splitext b)).
  { unfold Posixpath.splitext.
    destruct (_ && _); simpl.
    - eexists; symmetry; apply take_drop.
    - exists b; symmetry; apply str_app_empty_r. }
  destruct Eb as (stem & Eb).
  exists (take i path ++ stem).
  rewrite str_app_assoc, <- Eb.
  symmetry; apply take_drop.
Qed.

(** ** The strip step *)

Section StripProperties.

Context {os_path : OsPath} {re : Regex} {py_repr : Repr}.
Variable g : Globals.

(** One scan for a one-character pattern leaves none of that character. *)
Lemma sub_scan_char_free (c : ascii) (s : string) :
  Literal.occurs (String c EmptyString)
    (Literal.sub_scan (String c EmptyString) EmptyString 0 s) = false.
Proof.
  induction s as [|a r IH]; [reflexivity|].
  cbn [Literal.sub_scan Literal.startswith String.length].
  rewrite andb_true_r.
  destruct (c =? a)%char eqn:E.
  - exact IH.
  - cbn [Literal.occurs Literal.startswith].
    now rewrite E, IH.
Qed.

(** A string without a match goes through the scan unchanged. *)
Lemma sub_scan_match_free (pattern s : string) :
  Literal.occurs pattern s = false ->
  Literal.sub_scan pattern EmptyString 0 s = s.
Proof.
  induction s as [|a r IH]; cbn [Literal.occurs Literal.sub_scan].
  - destruct pattern; [discriminate | reflexivity].
  - intros O; apply orb_false_iff in O as [S O].
    rewrite S, (IH O); reflexivity.
Qed.

(** With a pattern set, the loop body returns a string built around
    what [re.sub] returned: the prefix text in front, and behind it what
    the postfix branch appended, which is nothing when that branch is not
    taken. *)
Lemma loop_body_with_pattern (pattern : string) (v o : pyval) :
  path_replace_regex (urls g) = Some pattern ->
  truthy (Some pattern) = true ->
  loop_body g v = Return o ->
  exists id core post,
    select_identifier g v = Return (PStr id)
    /\ re_sub pattern EmptyString id = Return core
    /\ o = PStr (prefix_text g ++ core ++ post)
    /\ (truthy (url_postfix (urls g)) = false
        \/ endswith (prefix_text g ++ core) (format_opt (url_postfix (urls g))) = true ->
        post = EmptyString).
Proof.
  intros P T L.
  unfold loop_body in L.
  apply bind_Return_inv in L as (v1 & S1 & L).
  apply bind_Return_inv in L as (v2 & S2 & L).
  unfold strip_regex in S2; rewrite P, T in S2.
  destruct v1 as [id|? ?]; [|discriminate].
  apply bind_Return_inv in S2 as (core & Ecore & S2).
  injection S2 as <-.
  exists id, core.
  assert (Epre : (if truthy (url_prefix (urls g))
                  then PStr (format_opt (url_prefix (urls g)) ++ "/" ++ core)
                  else PStr core)
                 = PStr (prefix_text g ++ core)).
  { unfold prefix_text; destruct (truthy (url_prefix (urls g))).
    - now rewrite str_app_assoc.
    - reflexivity. }
  unfold add_prefix, add_postfix, format in L.
  rewrite Epre in L.
  destruct (truthy (url_postfix (urls g))) eqn:Tpost.
  - destruct (endswith (prefix_text g ++ core) (format_opt (url_postfix (urls g))))
      eqn:E; cbn [negb] in L; injection L as <-.
    + exists EmptyString; repeat split; try assumption.
      now rewrite str_app_empty_r.
    + exists ("/" ++ format_opt (url_prefix (urls g))); repeat split; try assumption.
      * now rewrite str_app_assoc.
      * intros [F|F]; discriminate F.
  - injection L as <-.
    exists EmptyString; repeat split; try assumption.
    now rewrite str_app_empty_r.
Qed.

(** C3, amended. With a strip pattern set, each output identifier is
    [pre ++ core ++ post]: [core] is what [re.sub] returned for the
    pattern, the empty replacement and the selected identifier; [pre] is
    the prefix and a slash when a prefix is configured and empty
    otherwise; [post] is what the postfix branch appended, empty when no
    postfix is configured or when [pre ++ core] already ends with it.
    When the pattern is one ASCII character that is no metacharacter,
    which the engine removes and finds as the literal scan does, [core]
    holds no match of it. *)
Theorem strip_regex_decomposition (pattern : string) (results out : list pyval) :
  path_replace_regex (urls g) = Some pattern ->
  truthy (Some pattern) = true ->
  search_result_postprocess g results = Return out ->
  Forall2
    (fun v o =>
       exists id core post,
         select_identifier g v = Return (PStr id)
         /\ re_sub pattern EmptyString id = Return core
         /\ o = PStr (prefix_text g ++ core ++ post)
         /\ (truthy (url_postfix (urls g)) = false
             \/ endswith (prefix_text g ++ core)
                  (format_opt (url_postfix (urls g))) = true ->
             post = EmptyString)
         /\ (forall c,
               pattern = String c EmptyString ->
               is_ascii c = true ->
               Literal.is_literal pattern = true ->
               agrees_with_literal re pattern ->
               ~ has_match pattern core))
    results out.
Proof.
  intros P T R.
  apply postprocess_pairs in R.
  eapply Forall2_impl; [|exact R].
  intros v o L.
  destruct (loop_body_with_pattern _ v o P T L)
    as (id & core & post & Hsel & Hsub & Ho & Hpost).
  exists id, core, post.
  repeat split; try assumption.
  intros c -> _ _ A M.
  unfold has_match in M.
  destruct (A id) as [Asub _]; destruct (A core) as [_ Asearch].
  rewrite Asub in Hsub; rewrite Asearch in M.
  unfold Literal.sub in Hsub; injection Hsub as <-.
  unfold Literal.search in M; rewrite sub_scan_char_free in M; discriminate M.
Qed.

End StripProperties.

(** ** The handlers *)

Section HandlerProperties.

Context {os_path : OsPath} {re : Regex} {py_repr : Repr}.
Context {X : Type} {collab : Collaborators X}.
Variable g : Globals.

(** C4. [POST /generate-cache]: without a cache the handler queues one
    cache-construction task behind those already queued and answers that
    generation started; with a cache it queues nothing and answers that
    the cache already exists. *)
Theorem generate_cache_schedules (background_tasks : list task) (w : world X) :
  (has_cache (ext w) = false ->
     generate_cache background_tasks w
     = (Ok (JObj [("message", JStr "Cache generation started")]),
        (background_tasks ++ [GenerateCacheTask])%list))
  /\ (has_cache (ext w) = true ->
        generate_cache background_tasks w
        = (Ok (JObj [("message", JStr "Cache already exists")]), background_tasks)).
Proof.
  unfold generate_cache; split; intros ->; reflexivity.
Qed.

Lemma update_config_service (update : ConfigUpdate.t) (w : world X) :
  embedding_service (snd (update_config update w))
  = apply_update update (embedding_service w).
Proof.
  unfold update_config.
  destruct (config_save _ _) as [[u|e] x]; reflexivity.
Qed.

(** C5. [PUT /api-config]: an update without [base_url] leaves the
    engine's [base_url] as it was, and an update without [api_key] leaves
    the engine's [api_key] as it was, whether or not the save succeeds. *)
Theorem update_config_frame (update : ConfigUpdate.t) (w : world X) :
  (ConfigUpdate.base_url update = None ->
     EmbeddingService.base_url (embedding_service (snd (update_config update w)))
     = EmbeddingService.base_url (embedding_service w))
  /\ (ConfigUpdate.api_key update = None ->
        EmbeddingService.api_key (embedding_service (snd (update_config update w)))
        = EmbeddingService.api_key (embedding_service w)).
Proof.
  rewrite update_config_service; unfold apply_update.
  split; intros ->; simpl.
  - now destruct (truthy (ConfigUpdate.api_key update)).
  - now destruct (truthy (ConfigUpdate.base_url update)).
Qed.

(** C6. [PUT /api-config]: when [config.save()] raises, the handler
    answers 500 with the text of the exception, and the engine keeps the
    fields the update wrote before the save. *)
Theorem update_config_save_failure (update : ConfigUpdate.t) (w : world X)
    (e : exn) (x : X) :
  config_save (apply_update update (embedding_service w)) (ext w) = (Raise e, x) ->
  update_config update w
  = (HTTPException 500 (exn_str e),
     mkWorld (apply_update update (embedding_service w)) x)
  /\ (truthy (ConfigUpdate.api_key update) = true ->
        EmbeddingService.api_key (embedding_service (snd (update_config update w)))
        = ConfigUpdate.api_key update)
  /\ (truthy (ConfigUpdate.base_url update) = true ->
        EmbeddingService.base_url (embedding_service (snd (update_config update w)))
        = ConfigUpdate.base_url update).
Proof.
  intros S.
  split; [unfold update_config; now rewrite S|].
  rewrite update_config_service; unfold apply_update.
  split; intros ->; simpl.
  - now destruct (truthy (ConfigUpdate.base_url update)).
  - reflexivity.
Qed.

(** C10. [PUT /api-config]: an empty [api_key] or [base_url] in the
    update is handled as a missing one, so the engine's field stays as it
    was; a field of the engine that is the empty string after the call
    was the empty string before it. *)
Theorem update_config_empty_string (update : ConfigUpdate.t) (w : world X) :
  (ConfigUpdate.api_key update = Some EmptyString ->
     update_config update w
     = update_config {| ConfigUpdate.api_key := None;
                        ConfigUpdate.base_url := ConfigUpdate.base_url update |} w
     /\ EmbeddingService.api_key (embedding_service (snd (update_config update w)))
        = EmbeddingService.api_key (embedding_service w))
  /\ (ConfigUpdate.base_url update = Some EmptyString ->
        update_config update w
        = update_config {| ConfigUpdate.api_key := ConfigUpdate.api_key update;
                           ConfigUpdate.base_url := None |} w
        /\ EmbeddingService.base_url (embedding_service (snd (update_config update w)))
           = EmbeddingService.base_url (embedding_service w))
  /\ (EmbeddingService.api_key (embedding_service (snd (update_config update w)))
      = Some EmptyString ->
        EmbeddingService.api_key (embedding_service w) = Some EmptyString)
  /\ (EmbeddingService.base_url (embedding_service (snd (update_config update w)))
      = Some EmptyString ->
        EmbeddingService.base_url (embedding_service w) = Some EmptyString).
Proof.
  destruct update as [k b]; cbn [ConfigUpdate.api_key ConfigUpdate.base_url].
  split; [|split; [|split]].
  - intros ->; split; [reflexivity|].
    rewrite update_config_service; unfold apply_update; simpl.
    now destruct (truthy b).
  - intros ->; split; [reflexivity|].
    rewrite update_config_service; unfold apply_update; simpl.
    now destruct (truthy k).
  - rewrite update_config_service; unfold apply_update; simpl.
    destruct k as [[|c k]|], b as [[|d b]|]; simpl; intros E;
      first [exact E | discriminate E].
  - rewrite update_config_service; unfold apply_update; simpl.
    destruct k as [[|c k]|], b as [[|d b]|]; simpl; intros E;
      first [exact E | discriminate E].
Qed.

(** C7. [GET /libs_manifest]: a manifest file that is there is read
    without a rebuild; an absent one is rebuilt first and read then; a
    rebuild that raises is answered with 500.  The read answers 404 when
    the file is absent, 500 with a message on the JSON format when the
    text does not parse, the parsed document when it does, and 500 with
    the text of the exception on any other failure. *)
Theorem get_libs_manifest_contract (w : world X) :
  (path_exists (manifest_file (ext w)) = true ->
     get_libs_manifest w
     = (read_manifest (manifest_file (ext w)),
        mkWorld (embedding_service w) (ext w)))
  /\ (forall x,
        manifest_file (ext w) = Absent ->
        reload_community_info (ext w) = (Return tt, x) ->
        get_libs_manifest w
        = (read_manifest (manifest_file x), mkWorld (embedding_service w) x))
  /\ (forall e x,
        manifest_file (ext w) = Absent ->
        reload_community_info (ext w) = (Raise e, x) ->
        get_libs_manifest w = (Unhandled e, mkWorld (embedding_service w) x)
        /\ status_of (render (fst (get_libs_manifest w))) = 500)
  /\ read_manifest Absent = HTTPException 404 "Manifest file not found"
  /\ (forall text e,
        json_load text = Raise e ->
        exn_cls e = JSONDecodeError ->
        read_manifest (Content text)
        = HTTPException 500 "Invalid JSON format in manifest file")
  /\ (forall text manifest_data,
        json_load text = Return manifest_data ->
        read_manifest (Content text) = Ok manifest_data)
  /\ (forall f e,
        (text <- open_read f ;; json_load text) = Raise e ->
        exn_cls e <> FileNotFoundError ->
        exn_cls e <> JSONDecodeError ->
        read_manifest f = HTTPException 500 (exn_str e)).
Proof.
  unfold get_libs_manifest.
  split; [|split; [|split; [|split; [|split; [|split]]]]].
  - intros ->; reflexivity.
  - intros x -> ->; reflexivity.
  - intros e x -> ->; split; reflexivity.
  - reflexivity.
  - intros text e J C; unfold read_manifest; simpl.
    now rewrite J, C.
  - intros text manifest_data J; unfold read_manifest; simpl.
    now rewrite J.
  - intros f e R Nf Nj; unfold read_manifest; rewrite R.
    destruct (exn_cls e); try reflexivity; contradiction.
Qed.


End HandlerProperties.

(** * The model at concrete inputs *)

Section Examples.

Import Scenario.
#[local] Existing Instance posix.
#[local] Existing Instance Literal.instance.
#[local] Existing Instance ascii_repr.
#[local] Existing Instance collaborators.

(** The library instances on inputs whose results CPython documents. *)
Example splitext_last_extension :
  Posixpath.splitext "archive.tar.gz" = ("archive.tar", ".gz").
Proof. reflexivity. Qed.

Example splitext_leading_dots :
  Posixpath.splitext "/home/u/.bashrc" = ("/home/u/.bashrc", EmptyString).
Proof. reflexivity. Qed.

Example splitext_dot_in_directory :
  Posixpath.splitext "/a.b/c" = ("/a.b/c", EmptyString).
Proof. reflexivity. Qed.

Example basename_of_directory : Posixpath.basename "/usr/lib/" = EmptyString.
Proof. reflexivity. Qed.

Example normpath_collapses :
  Posixpath.normpath "/srv//app/./data/../img/" = "/srv/app/img".
Proof. reflexivity. Qed.

Example relpath_climbs :
  Posixpath.relpath "/srv/app" "/srv/other/cat.png" "/srv/app/data"
  = Return "../../other/cat.png".
Proof. reflexivity. Qed.

Example relpath_of_empty_path :
  Posixpath.relpath "/srv/app" EmptyString "/srv/app"
  = Raise (mkExn ValueError "no path specified").
Proof. reflexivity. Qed.

Example sub_is_one_pass : Literal.sub "ab" EmptyString "xabyaabbz" = Return "xyabz".
Proof. reflexivity. Qed.

Example sub_with_replacement : Literal.sub "an" "-" "banana" = Return "b--a".
Proof. reflexivity. Qed.

Example repr_picks_double_quotes :
  repr_ascii "it's" = String dquote ("it's" ++ String dquote EmptyString).
Proof. reflexivity. Qed.

(** Hash mode on a plain string indexes its characters; a string shorter
    than two characters raises. *)
Example sha256_on_plain_string :
  search_result_postprocess (with_return_type "sha256") [PStr "cat.png"]
  = Return [PStr "a"]
  /\ search_result_postprocess (with_return_type "sha256") [PStr "c"]
     = Raise (mkExn IndexError "string index out of range").
Proof. split; reflexivity. Qed.

(** C1 (the code departs from it). With the prefix
    [https://cdn.example] and the postfix [?raw=1] configured, the
    identifier [cat.png] does not end with the postfix after the prefix
    step, and what the postfix branch appends is a slash and the prefix:
    the output does not end with the postfix. *)
Theorem postfix_branch_appends_prefix_value :
  url_postfix (urls decorated) = Some "?raw=1"
  /\ endswith "https://cdn.example/cat.png" "?raw=1" = false
  /\ search_result_postprocess decorated [PStr "cat.png"]
     = Return [PStr "https://cdn.example/cat.png/https://cdn.example"]
  /\ endswith "https://cdn.example/cat.png/https://cdn.example" "?raw=1" = false.
Proof.
  repeat split.
Qed.

(** C3 as worded fails: with the pattern [ab] and nothing else set,
    [aabb] is stripped to [ab], which the pattern matches; with the
    pattern [_] and the prefix [img_host], the prefix added after the
    strip holds a match. *)
Lemma no_match_survives_refuted :
  ~ no_match_survives strip_ab [PStr "aabb"]
  /\ ~ no_match_survives strip_under_prefix [PStr "a_b.png"].
Proof.
  split; intros H.
  - apply (H "ab" [PStr "ab"] eq_refl eq_refl eq_refl "ab" (or_introl eq_refl)).
    reflexivity.
  - apply (H "_" [PStr "img_host/ab.png"] eq_refl eq_refl eq_refl
             "img_host/ab.png" (or_introl eq_refl)).
    reflexivity.
Qed.


(** C9 at two hits under the decorated configuration. *)
Lemma search_result_postprocess_elementwise_witness :
  search_result_postprocess decorated [PStr "cat.png"; PStr "dog.gif?raw=1"]
  = Return [PStr "https://cdn.example/cat.png/https://cdn.example";
            PStr "https://cdn.example/dog.gif?raw=1"]
  /\ List.length [PStr "https://cdn.example/cat.png/https://cdn.example";
                  PStr "https://cdn.example/dog.gif?raw=1"]
     = List.length [PStr "cat.png"; PStr "dog.gif?raw=1"].
Proof.
  split; [reflexivity|].
  apply (proj2 (proj2 (search_result_postprocess_elementwise decorated
                         [PStr "cat.png"; PStr "dog.gif?raw=1"]))).
  reflexivity.
Defined.

(** C2 at one configuration for each return type. *)
Lemma select_identifier_by_return_type_witness :
  select_identifier (with_return_type "abs_path") (PStr "/srv/app/data/cat.png")
  = Return (PStr "/srv/app/data/cat.png")
  /\ select_identifier (with_return_type "rel_path") (PStr "/srv/app/data/cat.png")
     = Return (PStr "data/cat.png")
  /\ select_identifier (with_return_type "sha256")
       (PPair "/srv/app/data/cat.png" "0f3a9c")
     = Return (PStr "0f3a9c.png")
  /\ select_identifier (with_return_type "thumbnail") (PPair "/srv/app/data/cat.png" "0f3a9c")
     = Return (PPair "/srv/app/data/cat.png" "0f3a9c").
Proof.
  split; [|split; [|split]].
  - apply (proj1 (select_identifier_by_return_type (with_return_type "abs_path"))).
    reflexivity.
  - exact (proj1 (proj2 (select_identifier_by_return_type (with_return_type "rel_path")))
             eq_refl "/srv/app/data/cat.png").
  - exact (proj1 (proj2 (proj2 (select_identifier_by_return_type
                                  (with_return_type "sha256"))))
             eq_refl "/srv/app/data/cat.png" "0f3a9c").
  - apply (proj2 (proj2 (proj2 (select_identifier_by_return_type
                                  (with_return_type "thumbnail")))));
      discriminate.
Defined.

(** C3, amended, at the pattern [_] under the prefix [img_host]. *)
Lemma strip_regex_decomposition_witness :
  path_replace_regex (urls strip_under_prefix) = Some "_"
  /\ truthy (Some "_") = true
  /\ search_result_postprocess strip_under_prefix [PStr "a_b_.png"]
     = Return [PStr "img_host/ab.png"]
  /\ Forall2
       (fun v o =>
          exists id core post,
            select_identifier strip_under_prefix v = Return (PStr id)
            /\ re_sub "_" EmptyString id = Return core
            /\ o = PStr (prefix_text strip_under_prefix ++ core ++ post)
            /\ (truthy (url_postfix (urls strip_under_prefix)) = false
                \/ endswith (prefix_text strip_under_prefix ++ core)
                     (format_opt (url_postfix (urls strip_under_prefix))) = true ->
                post = EmptyString)
            /\ (forall c,
                  "_" = String c EmptyString ->
                  is_ascii c = true ->
                  Literal.is_literal "_" = true ->
                  agrees_with_literal Literal.instance "_" ->
                  ~ has_match "_" core))
       [PStr "a_b_.png"] [PStr "img_host/ab.png"]
  /\ is_ascii "_" = true
  /\ Literal.is_literal "_" = true
  /\ agrees_with_literal Literal.instance "_".
Proof.
  split; [reflexivity|split; [reflexivity|split; [reflexivity|split]]].
  - apply (strip_regex_decomposition strip_under_prefix "_"
             [PStr "a_b_.png"] [PStr "img_host/ab.png"]);
      reflexivity.
  - split; [reflexivity|split; [reflexivity|]].
    intros s; split; reflexivity.
Defined.

(** C4 without and with a cache. *)
Lemma generate_cache_schedules_witness :
  (has_cache fresh = false
   /\ generate_cache [] (mkWorld service fresh)
      = (Ok (JObj [("message", JStr "Cache generation started")]),
         [GenerateCacheTask]))
  /\ (has_cache disk_full = true
      /\ generate_cache [] (mkWorld service disk_full)
         = (Ok (JObj [("message", JStr "Cache already exists")]), [])).
Proof.
  split; (split; [reflexivity|]).
  - apply (proj1 (generate_cache_schedules [] (mkWorld service fresh))).
    reflexivity.
  - apply (proj2 (generate_cache_schedules [] (mkWorld service disk_full))).
    reflexivity.
Defined.

(** C5 at an update of the key alone and at an update of the URL
    alone. *)
Lemma update_config_frame_witness :
  EmbeddingService.base_url
    (embedding_service
       (snd (update_config
               {| ConfigUpdate.api_key := Some "sk-new"; ConfigUpdate.base_url := None |}
               (mkWorld service fresh))))
  = Some "https://api.example/v1"
  /\ EmbeddingService.api_key
       (embedding_service
          (snd (update_config
                  {| ConfigUpdate.api_key := None;
                     ConfigUpdate.base_url := Some "https://other.example" |}
                  (mkWorld service fresh))))
     = Some "sk-old".
Proof.
  split.
  - apply (proj1 (update_config_frame
                    {| ConfigUpdate.api_key := Some "sk-new"; ConfigUpdate.base_url := None |}
                    (mkWorld service fresh))).
    reflexivity.
  - apply (proj2 (update_config_frame
                    {| ConfigUpdate.api_key := None;
                       ConfigUpdate.base_url := Some "https://other.example" |}
                    (mkWorld service fresh))).
    reflexivity.
Defined.

(** C6 on a full disk. *)
Lemma update_config_save_failure_witness :
  update_config
    {| ConfigUpdate.api_key := Some "sk-new";
       ConfigUpdate.base_url := Some "https://other.example" |}
    (mkWorld service disk_full)
  = (HTTPException 500 "[Errno 28] No space left on device",
     mkWorld {| EmbeddingService.api_key := Some "sk-new";
                EmbeddingService.base_url := Some "https://other.example" |}
             disk_full).
Proof.
  refine (proj1 (update_config_save_failure
                   {| ConfigUpdate.api_key := Some "sk-new";
                      ConfigUpdate.base_url := Some "https://other.example" |}
                   (mkWorld service disk_full)
                   (mkExn OtherError "[Errno 28] No space left on device")
                   disk_full _)).
  reflexivity.
Defined.

(** C10 at an update with an empty key and at an engine whose settings
    are empty. *)
Lemma update_config_empty_string_witness :
  EmbeddingService.api_key
    (embedding_service
       (snd (update_config
               {| ConfigUpdate.api_key := Some EmptyString;
                  ConfigUpdate.base_url := Some "https://other.example" |}
               (mkWorld service fresh))))
  = Some "sk-old"
  /\ EmbeddingService.base_url
       (embedding_service
          (snd (update_config
                  {| ConfigUpdate.api_key := Some "sk-new";
                     ConfigUpdate.base_url := Some EmptyString |}
                  (mkWorld service fresh))))
     = Some "https://api.example/v1"
  /\ EmbeddingService.api_key blank_service = Some EmptyString
  /\ EmbeddingService.base_url blank_service = Some EmptyString.
Proof.
  split; [|split; [|split]].
  - apply (proj1 (update_config_empty_string
                    {| ConfigUpdate.api_key := Some EmptyString;
                       ConfigUpdate.base_url := Some "https://other.example" |}
                    (mkWorld service fresh))).
    reflexivity.
  - apply (proj1 (proj2 (update_config_empty_string
                           {| ConfigUpdate.api_key := Some "sk-new";
                              ConfigUpdate.base_url := Some EmptyString |}
                           (mkWorld service fresh)))).
    reflexivity.
  - apply (proj1 (proj2 (proj2 (update_config_empty_string
                                  {| ConfigUpdate.api_key := None;
                                     ConfigUpdate.base_url := Some "https://other.example" |}
                                  (mkWorld blank_service fresh))))).
    reflexivity.
  - apply (proj2 (proj2 (proj2 (update_config_empty_string
                                  {| ConfigUpdate.api_key := Some "sk-new";
                                     ConfigUpdate.base_url := None |}
                                  (mkWorld blank_service fresh))))).
    reflexivity.
Defined.

(** C7 in five environments: a manifest cut short, a fresh installation,
    a rebuild that raises, a rebuild that writes nothing, a manifest that
    cannot be opened. *)
Lemma get_libs_manifest_contract_witness :
  get_libs_manifest (mkWorld service disk_full)
  = (HTTPException 500 "Invalid JSON format in manifest file", mkWorld service disk_full)
  /\ fst (get_libs_manifest (mkWorld service fresh)) = Ok (JObj [])
  /\ status_of (render (fst (get_libs_manifest (mkWorld service offline)))) = 500
  /\ fst (get_libs_manifest (mkWorld service rebuild_writes_nothing))
     = HTTPException 404 "Manifest file not found"
  /\ read_manifest (Content "{")
     = HTTPException 500 "Invalid JSON format in manifest file"
  /\ read_manifest (Content "{}") = Ok (JObj [])
  /\ read_manifest (manifest locked)
     = HTTPException 500 "[Errno 13] Permission denied".
Proof.
  split; [|split; [|split; [|split; [|split; [|split]]]]].
  - rewrite (proj1 (get_libs_manifest_contract (mkWorld service disk_full)))
      by reflexivity.
    reflexivity.
  - rewrite (proj1 (proj2 (get_libs_manifest_contract (mkWorld service fresh)))
               (snd (rebuild fresh)));
      reflexivity.
  - refine (proj2 (proj1 (proj2 (proj2 (get_libs_manifest_contract
                                          (mkWorld service offline))))
                     (mkExn OtherError "Connection refused") offline _ _));
      reflexivity.
  - rewrite (proj1 (proj2 (get_libs_manifest_contract
                             (mkWorld service rebuild_writes_nothing)))
               (snd (rebuild rebuild_writes_nothing)));
      [|reflexivity|reflexivity].
    exact (proj1 (proj2 (proj2 (proj2 (get_libs_manifest_contract
                                         (mkWorld service rebuild_writes_nothing)))))).
  - apply (proj1 (proj2 (proj2 (proj2 (proj2 (get_libs_manifest_contract
                                                (mkWorld service disk_full))))))
             "{" (mkExn JSONDecodeError "Expecting value: line 1 column 1 (char 0)"));
      reflexivity.
  - apply (proj1 (proj2 (proj2 (proj2 (proj2 (proj2 (get_libs_manifest_contract
                                                       (mkWorld service fresh)))))))
             "{}" (JObj [])).
    reflexivity.
  - apply (proj2 (proj2 (proj2 (proj2 (proj2 (proj2 (get_libs_manifest_contract
                                                       (mkWorld service locked)))))))
             (manifest locked) (mkExn OtherError "[Errno 13] Permission denied"));
      [reflexivity | discriminate | discriminate].
Defined.


End Examples.

(** * Further properties of the module *)

(** ** The post-processor, for every library behind it *)

Section PostprocessFurther.

Context {os_path : OsPath} {re : Regex} {py_repr : Repr}.
Variable g : Globals.

Lemma map_outcome_id {A : Type} (f : A -> outcome A) (l : list A) :
  (forall a, f a = Return a) -> map_outcome f l = Return l.
Proof.
  intros F; induction l as [|a l IH]; simpl; [reflexivity|].
  now rewrite F, IH.
Qed.

Lemma loop_body_prefixed (v o : pyval) :
  truthy (url_prefix (urls g)) = true ->
  loop_body g v = Return o ->
  exists rest, o = PStr (format_opt (url_prefix (urls g)) ++ "/" ++ rest).
Proof.
  intros T L.
  unfold loop_body in L.
  apply bind_Return_inv in L as (v1 & _ & L).
  apply bind_Return_inv in L as (v2 & _ & L).
  unfold add_prefix in L; rewrite T in L.
  unfold add_postfix in L.
  destruct (truthy (url_postfix (urls g))).
  - destruct (negb (endswith _ _)); injection L as <-.
    + eexists; rewrite !str_app_assoc; reflexivity.
    + eexists; reflexivity.
  - injection L as <-; eexists; reflexivity.
Qed.

(** X1. With a URL prefix configured, every identifier of a returned list is
    a string that starts with the prefix and a slash, whatever the raw
    result was and whatever the other settings are. *)
Theorem prefix_starts_every_identifier (results out : list pyval) :
  truthy (url_prefix (urls g)) = true ->
  search_result_postprocess g results = Return out ->
  Forall (fun o => exists rest,
            o = PStr (format_opt (url_prefix (urls g)) ++ "/" ++ rest)) out.
Proof.
  intros T R.
  apply postprocess_pairs in R.
  induction R as [|v o results out L _ IH]; constructor.
  - exact (loop_body_prefixed v o T L).
  - exact IH.
Qed.

(** X2. With [abs_path] or an unknown return type and neither a pattern, a
    prefix nor a postfix configured, the post-processor returns its input
    list as it is, for raw results of either shape, and does not raise. *)
Theorem postprocess_without_settings_is_identity (results : list pyval) :
  return_type (urls g) <> "rel_path" ->
  return_type (urls g) <> "sha256" ->
  truthy (path_replace_regex (urls g)) = false ->
  truthy (url_prefix (urls g)) = false ->
  truthy (url_postfix (urls g)) = false ->
  search_result_postprocess g results = Return results.
Proof.
  intros Nr Ns Tr Tp Tq.
  rewrite postprocess_as_map.
  apply map_outcome_id; intros v.
  unfold loop_body, select_identifier, strip_regex, add_prefix, add_postfix.
  apply String.eqb_neq in Nr, Ns.
  rewrite Nr, Ns, Tr, Tp, Tq.
  now destruct (return_type (urls g) =? "abs_path").
Qed.

(** X3. A pair among the raw results makes the post-processor raise under
    [rel_path], and under any return type other than [sha256] when a
    pattern is configured: no list is returned. *)
Theorem pair_outside_hash_mode_raises (results : list pyval) (path hash : string) :
  In (PPair path hash) results ->
  return_type (urls g) = "rel_path"
  \/ (return_type (urls g) <> "sha256"
      /\ truthy (path_replace_regex (urls g)) = true) ->
  exists e, search_result_postprocess g results = Raise e.
Proof.
  intros I M.
  rewrite postprocess_as_map.
  assert (L : exists e, loop_body g (PPair path hash) = Raise e).
  { unfold loop_body, select_identifier, strip_regex.
    destruct M as [-> | [Ns T]].
    - simpl; eauto.
    - apply String.eqb_neq in Ns; rewrite Ns, T.
      destruct (return_type (urls g) =? "abs_path"); simpl; eauto.
      destruct (return_type (urls g) =? "rel_path"); simpl; eauto. }
  destruct L as (e & L).
  induction results as [|v rest IH]; [contradiction|].
  simpl.
  destruct I as [-> | I].
  - rewrite L; simpl; eauto.
  - destruct (loop_body g v) as [v'|e']; simpl; [|eauto].
    destruct (IH I) as (e'' & ->); simpl; eauto.
Qed.

End PostprocessFurther.

(** ** The post-processor on a POSIX system *)

Section PostprocessOnPosix.

Context {re : Regex} {py_repr : Repr}.
Variable cwd : string.
Variable g : Globals.

#[local] Abbreviation loop_body_here :=
  (loop_body (os_path := Posixpath.instance cwd) g).
#[local] Abbreviation select_here :=
  (select_identifier (os_path := Posixpath.instance cwd) g).
#[local] Abbreviation postprocess_here :=
  (search_result_postprocess (os_path := Posixpath.instance cwd) g).

Lemma relpath_returns_iff (p start : string) :
  (exists r, Posixpath.relpath cwd p start = Return r) <-> nonempty p = true.
Proof.
  unfold Posixpath.relpath.
  destruct (nonempty p); simpl.
  - split; [reflexivity|intros _].
    destruct (Posixpath.is_nil _); eauto.
  - split; [intros (r & E); discriminate E | discriminate].
Qed.

Lemma index_1_returns_iff (s : string) :
  (exists c, index s 1 = Return c) <-> (2 <=? String.length s)%nat = true.
Proof.
  unfold index.
  destruct s as [|a [|b r]]; simpl.
  - split; [intros (c & E); discriminate E | discriminate].
  - split; [intros (c & E); discriminate E | discriminate].
  - split; [reflexivity | eauto].
Qed.

(** [select_shape] says whether the branch on the return type goes
    through, and with which shape. *)
Lemma select_shape_sound (v : pyval) :
  match select_here v with
  | Return v' => select_shape g v = Some (is_str v')
  | Raise _ => select_shape g v = None
  end.
Proof.
  unfold select_identifier, select_shape.
  destruct (return_type (urls g) =? "abs_path"); [reflexivity|].
  destruct (return_type (urls g) =? "rel_path").
  - destruct v as [p|? ?]; [|reflexivity].
    cbn [relpath Posixpath.instance].
    destruct (nonempty p) eqn:N.
    + apply (relpath_returns_iff p (base_dir g)) in N as (r & ->); reflexivity.
    + unfold Posixpath.relpath; rewrite N; reflexivity.
  - destruct (return_type (urls g) =? "sha256"); [|reflexivity].
    destruct v as [s|? ?]; [|reflexivity].
    destruct s as [|a [|b r]]; reflexivity.
Qed.

Lemma decoration_returns_iff (v : pyval) :
  pattern_compiles g ->
  (exists o, (v2 <- strip_regex g v ;;
              add_postfix g (add_prefix g v2)) = Return o)
  <-> is_str v
      || (negb (truthy (path_replace_regex (urls g)))
          && (truthy (url_prefix (urls g)) || negb (truthy (url_postfix (urls g)))))
      = true.
Proof.
  intros C.
  unfold strip_regex, add_prefix, add_postfix.
  destruct v as [s|a b]; cbn [is_str orb].
  - split; [reflexivity|intros _].
    destruct (truthy (path_replace_regex (urls g))) eqn:T.
    + destruct (C T s) as (r & ->); cbn [bind].
      destruct (truthy (url_prefix (urls g)));
        destruct (truthy (url_postfix (urls g)));
        try destruct (negb (endswith _ _)); eauto.
    + cbn [bind].
      destruct (truthy (url_prefix (urls g)));
        destruct (truthy (url_postfix (urls g)));
        try destruct (negb (endswith _ _)); eauto.
  - destruct (truthy (path_replace_regex (urls g))); simpl.
    + split; [intros (o & E); discriminate E | discriminate].
    + destruct (truthy (url_prefix (urls g)));
        destruct (truthy (url_postfix (urls g))); simpl;
        try destruct (negb (endswith _ _));
        split; eauto; try discriminate; intros (o & E); discriminate E.
Qed.

Lemma loop_body_returns_iff (v : pyval) :
  pattern_compiles g ->
  (exists o, loop_body_here v = Return o) <-> accepts g v = true.
Proof.
  intros C.
  unfold loop_body, accepts.
  pose proof (select_shape_sound v) as S.
  destruct (select_here v) as [v1|e]; rewrite S; simpl.
  - now apply decoration_returns_iff.
  - split; [intros (o & E); discriminate E | discriminate].
Qed.

(** X4. On a POSIX system, with a pattern that [re.sub] accepts (or
    none) and raw results whose plain strings are ASCII, the
    post-processor returns a list exactly when every raw result is
    accepted by the configuration: a non-empty path string under
    [rel_path]; a pair, or a string of at least two characters, under
    [sha256]; otherwise a string, or a pair when no pattern is set and the
    postfix test is not reached on it.  It raises on every other such
    list. *)
Theorem postprocess_returns_iff_accepted (results : list pyval) :
  pattern_compiles g ->
  forallb raw_ascii results = true ->
  (exists out, postprocess_here results = Return out)
  <-> forallb (accepts g) results = true.
Proof.
  intros C _.
  rewrite postprocess_as_map.
  induction results as [|v rest IH]; simpl.
  - split; eauto.
  - rewrite andb_true_iff, <- IH, <- (loop_body_returns_iff v C).
    split.
    + intros (out & E).
      apply bind_Return_inv in E as (o & Eo & E).
      apply bind_Return_inv in E as (os & Eos & _).
      eauto.
    + intros ((o & Eo) & (os & Eos)).
      rewrite Eo, Eos; simpl; eauto.
Qed.

End PostprocessOnPosix.

(** ** Paths on a POSIX system *)

Lemma rfind_from_shift (c : ascii) (s : string) (i last : Z) :
  rfind_from c s i last
  = if (rfind c s <? 0)%Z then last else (i + rfind c s)%Z.
Proof.
  unfold rfind.
  revert i last; induction s as [|a r IH]; intros i last; simpl.
  - reflexivity.
  - rewrite (IH (i + 1)%Z), (IH 1%Z).
    destruct (rfind_from c r 0 (-1) <? 0)%Z eqn:R.
    + destruct (a =? c)%char; cbn; [lia | reflexivity].
    + apply Z.ltb_ge in R.
      destruct (1 + rfind_from c r 0 (-1) <? 0)%Z eqn:R'.
      * apply Z.ltb_lt in R'; lia.
      * lia.
Qed.

Lemma rfind_cons (c a : ascii) (r : string) :
  rfind c (String a r)
  = if (rfind c r <? 0)%Z then (if (a =? c)%char then 0%Z else (-1)%Z)
    else (1 + rfind c r)%Z.
Proof.
  unfold rfind at 1; simpl.
  apply rfind_from_shift.
Qed.

Lemma rfind_absent (c : ascii) (s : string) :
  (rfind c s < 0)%Z -> contains_char c s = false.
Proof.
  induction s as [|a r IH]; [reflexivity|].
  rewrite rfind_cons; cbn [contains_char].
  destruct (rfind c r <? 0)%Z eqn:R.
  - apply Z.ltb_lt in R.
    destruct (a =? c)%char; [intros; lia|].
    intros _; now apply IH.
  - apply Z.ltb_ge in R; intros; lia.
Qed.

(** From the last occurrence on, the string is the character and a rest
    without it. *)
Lemma drop_at_rfind (c : ascii) (s : string) :
  (0 <= rfind c s)%Z ->
  exists rest,
    drop (Z.to_nat (rfind c s)) s = String c rest
    /\ contains_char c rest = false.
Proof.
  induction s as [|a r IH].
  - unfold rfind; simpl; intros; lia.
  - rewrite rfind_cons.
    destruct (rfind c r <? 0)%Z eqn:R.
    + apply Z.ltb_lt in R.
      destruct (a =? c)%char eqn:E; [|intros; lia].
      intros _; apply Ascii.eqb_eq in E; subst a.
      exists r; split; [reflexivity | now apply rfind_absent].
    + apply Z.ltb_ge in R; intros _.
      destruct (IH R) as (rest & D & C).
      exists rest; split; [|exact C].
      replace (Z.to_nat (1 + rfind c r)) with (S (Z.to_nat (rfind c r))) by lia.
      exact D.
Qed.

Lemma contains_char_drop (c : ascii) (n : nat) (s : string) :
  contains_char c s = false -> contains_char c (drop n s) = false.
Proof.
  revert s; induction n as [|n IH]; intros [|a r]; simpl; try easy.
  intros C; apply orb_false_iff in C as [_ C]; now apply IH.
Qed.

Lemma basename_without_slash (p : string) :
  contains_char Posixpath.sep (Posixpath.basename p) = false.
Proof.
  unfold Posixpath.basename.
  induction p as [|a r IH]; [reflexivity|].
  rewrite rfind_cons.
  destruct (rfind Posixpath.sep r <? 0)%Z eqn:R.
  - apply Z.ltb_lt in R; apply rfind_absent in R.
    destruct (a =? Posixpath.sep)%char eqn:E; simpl.
    + exact R.
    + now rewrite E.
  - apply Z.ltb_ge in R.
    replace (Z.to_nat (1 + rfind Posixpath.sep r + 1))
      with (S (Z.to_nat (rfind Posixpath.sep r + 1))) by lia.
    exact IH.
Qed.

(** The extension [splitext] gives is empty, or a dot and a rest without
    a dot. *)
Lemma splitext_extension_shape (b : string) :
  snd (Posixpath.splitext b) = EmptyString
  \/ exists rest,
       snd (Posixpath.splitext b) = String Posixpath.extsep rest
       /\ contains_char Posixpath.extsep rest = false.
Proof.
  unfold Posixpath.splitext.
  destruct (rfind Posixpath.sep b <? rfind Posixpath.extsep b)%Z eqn:L;
    simpl; [|now left].
  destruct (Posixpath.has_non_dot _ _ _); simpl; [right | now left].
  apply Z.ltb_lt in L.
  assert (B : (-1 <= rfind Posixpath.sep b)%Z).
  { clear L; induction b as [|a r IH]; [unfold rfind; simpl; lia|].
    rewrite rfind_cons.
    destruct (rfind Posixpath.sep r <? 0)%Z;
      [destruct (a =? Posixpath.sep)%char|]; lia. }
  apply drop_at_rfind; lia.
Qed.

Lemma splitext_extension_of (b : string) :
  exists n, snd (Posixpath.splitext b) = drop n b.
Proof.
  unfold Posixpath.splitext.
  destruct (_ && _); simpl.
  - eexists; reflexivity.
  - exists (String.length b).
    induction b as [|a r IH]; simpl; [reflexivity | exact IH].
Qed.

Lemma split_without_sep (sep : ascii) (s : string) :
  Forall (fun x => contains_char sep x = false) (split sep s).
Proof.
  induction s as [|a r IH]; simpl.
  - constructor; [reflexivity | constructor].
  - destruct (a =? sep)%char eqn:E.
    + constructor; [reflexivity | exact IH].
    + destruct (split sep r) as [|h t].
      * constructor; [simpl; now rewrite E | constructor].
      * inversion IH as [|? ? Hh Ht]; subst.
        constructor; [simpl; now rewrite E, Hh | exact Ht].
Qed.

Lemma split_sep_free (sep : ascii) (c : string) :
  contains_char sep c = false -> split sep c = [c].
Proof.
  induction c as [|a r IH]; simpl; [reflexivity|].
  intros C; apply orb_false_iff in C as [E C].
  now rewrite E, (IH C).
Qed.

Lemma split_app_sep (sep : ascii) (c t : string) :
  contains_char sep c = false ->
  split sep (c ++ String sep t) = c :: split sep t.
Proof.
  induction c as [|a r IH]; simpl.
  - now rewrite Ascii.eqb_refl.
  - intros C; apply orb_false_iff in C as [E C].
    now rewrite E, (IH C).
Qed.

Lemma join_head (sep : string) (a : ascii) (c : string) (rest : list string) :
  exists t, join sep (String a c :: rest) = String a t.
Proof.
  destruct rest; simpl; eauto.
Qed.

Lemma split_join (cs : list string) :
  Forall (fun x => contains_char Posixpath.sep x = false) cs ->
  cs <> [] ->
  split Posixpath.sep (join "/" cs) = cs.
Proof.
  induction cs as [|c tl IH]; [easy|].
  intros F _; inversion F as [|? ? Hc Htl]; subst.
  destruct tl as [|c2 rest].
  - simpl; now apply split_sep_free.
  - change (join "/" (c :: c2 :: rest))
      with (c ++ String Posixpath.sep (join "/" (c2 :: rest))).
    rewrite (split_app_sep _ _ _ Hc), IH; [reflexivity | exact Htl | discriminate].
Qed.

Lemma plain_component_spec (c : string) :
  plain_component c = true ->
  nonempty c = true /\ contains_char Posixpath.sep c = false
  /\ (c =? ".") = false /\ (c =? "..") = false.
Proof.
  unfold plain_component; intros P.
  repeat (apply andb_true_iff in P as [P ?]).
  repeat split; try assumption; now apply negb_true_iff.
Qed.

Lemma normpath_steps_plain (n : nat) (cs acc : list string) :
  forallb plain_component cs = true ->
  fold_left (Posixpath.normpath_step n) cs acc = (acc ++ cs)%list.
Proof.
  revert acc; induction cs as [|c cs IH]; intros acc; simpl.
  - now rewrite app_nil_r.
  - intros P; apply andb_true_iff in P as [Pc P].
    destruct (plain_component_spec c Pc) as (Nc & _ & Nd & Ndd).
    rewrite (IH _ P).
    assert (E : Posixpath.normpath_step n acc c = (acc ++ [c])%list).
    { unfold Posixpath.normpath_step.
      destruct c; [discriminate|].
      now rewrite Nd, Ndd. }
    rewrite E, <- app_assoc; reflexivity.
Qed.

Lemma plain_components_sep_free (cs : list string) :
  forallb plain_component cs = true ->
  Forall (fun x => contains_char Posixpath.sep x = false) cs.
Proof.
  intros P; apply Forall_forall; intros x I.
  rewrite forallb_forall in P.
  now destruct (plain_component_spec x (P x I)) as (_ & C & _).
Qed.

Lemma filter_nonempty_plain (cs : list string) :
  forallb plain_component cs = true -> filter nonempty cs = cs.
Proof.
  induction cs as [|c cs IH]; simpl; [reflexivity|].
  intros P; apply andb_true_iff in P as [Pc P].
  destruct (plain_component_spec c Pc) as (-> & _).
  now rewrite (IH P).
Qed.

(** An absolute path made of plain components is its own [abspath], and
    its components are what [relpath] compares. *)
Lemma components_of_clean_path (cwd : string) (cs : list string) :
  forallb plain_component cs = true ->
  filter nonempty
    (split Posixpath.sep (Posixpath.abspath cwd (String Posixpath.sep (join "/" cs))))
  = cs.
Proof.
  intros P.
  unfold Posixpath.abspath, Posixpath.normpath.
  cbn [Posixpath.isabs nonempty negb].
  rewrite Ascii.eqb_refl.
  assert (S1 : Posixpath.starts_with_slashes 2 (String Posixpath.sep (join "/" cs))
               = false).
  { destruct cs as [|c rest]; [reflexivity|].
    simpl in P; apply andb_true_iff in P as [Pc _].
    destruct (plain_component_spec c Pc) as (Nc & C & _).
    destruct c as [|a c]; [discriminate|].
    destruct (join_head "/" a c rest) as (t & ->).
    simpl in C; apply orb_false_iff in C as [E _].
    unfold Posixpath.starts_with_slashes; cbn.
    unfold Posixpath.sep in E; now rewrite E. }
  rewrite S1; cbn [andb].
  destruct cs as [|c rest] eqn:Ecs.
  - reflexivity.
  - assert (N : cs <> []) by (rewrite Ecs; discriminate).
    rewrite <- Ecs in *; clear Ecs c rest.
    cbn [split]; rewrite Ascii.eqb_refl.
    rewrite split_join; [|now apply plain_components_sep_free|exact N].
    cbn [fold_left].
    change (Posixpath.normpath_step 1 [] EmptyString) with (@nil string).
    rewrite normpath_steps_plain by exact P.
    cbn [app Posixpath.make_slashes append nonempty split].
    rewrite Ascii.eqb_refl.
    rewrite split_join; [|now apply plain_components_sep_free|exact N].
    cbn [filter nonempty].
    now apply filter_nonempty_plain.
Qed.

Lemma common_prefix_len_app (bs ps : list string) :
  Posixpath.common_prefix_len bs (bs ++ ps) = List.length bs.
Proof.
  induction bs as [|b bs IH]; simpl.
  - now destruct ps.
  - now rewrite String.eqb_refl, IH.
Qed.

Lemma relpath_is_relative (cwd p start r : string) :
  Posixpath.relpath cwd p start = Return r ->
  Posixpath.isabs r = false /\ nonempty r = true.
Proof.
  unfold Posixpath.relpath.
  destruct (nonempty p); simpl; [|discriminate].
  set (start_list := filter nonempty _).
  set (path_list := filter nonempty _).
  set (i := Posixpath.common_prefix_len _ _).
  set (rel_list := (_ ++ _)%list).
  assert (G : Forall (fun x => nonempty x = true
                               /\ contains_char Posixpath.sep x = false) rel_list).
  { apply Forall_app; split.
    - apply Forall_forall; intros x I.
      apply repeat_spec in I; subst x; split; reflexivity.
    - assert (F : Forall (fun x => nonempty x = true
                                   /\ contains_char Posixpath.sep x = false)
                    path_list).
      { apply Forall_forall; intros x I.
        apply filter_In in I as [I N]; split; [exact N|].
        pose proof (split_without_sep Posixpath.sep (Posixpath.abspath cwd p)) as S.
        rewrite Forall_forall in S; now apply S. }
      rewrite <- (firstn_skipn i path_list) in F.
      now apply Forall_app in F as [_ F]. }
  destruct rel_list as [|x rest]; cbn [Posixpath.is_nil].
  - intros E; injection E as <-; split; reflexivity.
  - intros E; injection E as <-.
    inversion G as [|? ? [Nx Cx] _]; subst.
    destruct x as [|a x]; [discriminate|].
    simpl in Cx; apply orb_false_iff in Cx as [Ea _].
    destruct rest; split; first [exact Ea | reflexivity].
Qed.

Section SelectionOnPosix.

Variable cwd : string.
Variable g : Globals.

#[local] Abbreviation select_posix :=
  (select_identifier (os_path := Posixpath.instance cwd) g).

(** X5. In hash mode on a POSIX system, the identifier of a pair is the hash
    followed by an extension that is the end of the path, holds no slash,
    and is empty or one dot followed by text without a dot: the directory
    and the base name of the path are gone. *)
Theorem hash_mode_keeps_only_extension (path hash : string) :
  return_type (urls g) = "sha256" ->
  exists stem ext,
    select_posix (PPair path hash) = Return (PStr (hash ++ ext))
    /\ path = stem ++ ext
    /\ contains_char "/" ext = false
    /\ (ext = EmptyString
        \/ exists rest, ext = String "." rest /\ contains_char "." rest = false).
Proof.
  intros Rt.
  destruct (posix_extension_is_suffix path) as (stem & Estem).
  exists stem, (snd (Posixpath.splitext (Posixpath.basename path))).
  split; [|split; [exact Estem|split]].
  - unfold select_identifier; rewrite Rt; reflexivity.
  - destruct (splitext_extension_of (Posixpath.basename path)) as (n & ->).
    apply contains_char_drop, basename_without_slash.
  - apply splitext_extension_shape.
Qed.

(** X6. In [rel_path] mode on a POSIX system, whatever the branch returns is
    a relative path: a non-empty string that does not start with a
    slash. *)
Theorem rel_path_mode_gives_relative_path (p : string) (v : pyval) :
  return_type (urls g) = "rel_path" ->
  select_posix (PStr p) = Return v ->
  exists r, v = PStr r /\ Posixpath.isabs r = false /\ nonempty r = true.
Proof.
  intros Rt S.
  unfold select_identifier in S; rewrite Rt in S; simpl in S.
  apply bind_Return_inv in S as (r & R & S).
  injection S as <-.
  exists r; split; [reflexivity|].
  exact (relpath_is_relative cwd p (base_dir g) r R).
Qed.

(** X7. In [rel_path] mode on a POSIX system, a path that lies below the
    base directory is rewritten to its components below it: with the base
    directory [/b1/.../bm] and the path [/b1/.../bm/p1/.../pn], all
    components plain and [n >= 1], the identifier is [p1/.../pn],
    whatever the working directory is. *)
Theorem rel_path_mode_below_base_dir (bs ps : list string) :
  return_type (urls g) = "rel_path" ->
  base_dir g = String "/" (join "/" bs) ->
  forallb plain_component (bs ++ ps) = true ->
  ps <> [] ->
  select_posix (PStr (String "/" (join "/" (bs ++ ps))))
  = Return (PStr (join "/" ps)).
Proof.
  intros Rt Eb P Nps.
  unfold select_identifier; rewrite Rt, Eb; simpl.
  unfold Posixpath.relpath; cbn [nonempty negb].
  assert (Pb : forallb plain_component bs = true).
  { rewrite forallb_app in P; now apply andb_true_iff in P as [Pb _]. }
  change (String "/" (join "/" bs)) with (String Posixpath.sep (join "/" bs)).
  change (String "/" (join "/" (bs ++ ps)))
    with (String Posixpath.sep (join "/" (bs ++ ps))).
  rewrite (components_of_clean_path cwd bs Pb),
          (components_of_clean_path cwd (bs ++ ps) P).
  rewrite common_prefix_len_app, Nat.sub_diag; cbn [repeat app].
  rewrite skipn_app, skipn_all, Nat.sub_diag; cbn [app skipn].
  destruct ps as [|x rest]; [contradiction|reflexivity].
Qed.

End SelectionOnPosix.

(** ** The handlers, further *)

Section HandlersFurther.

Context {os_path : OsPath} {re : Regex} {py_repr : Repr}.
Context {X : Type} {collab : Collaborators X}.
Context {info : EngineInfo X} {build : EngineBuild X}.
Variable g : Globals.

Lemma search_images_returns (request : SearchRequestEnhanced.t) (w : world X)
    (hits out : list pyval) :
  fst (search (search_args_of g request w) (embedding_service w) (ext w))
  = Return hits ->
  search_result_postprocess g hits = Return out ->
  fst (search_images g request w) = Ok (JObj [("results", JArr (map jsonable out))]).
Proof.
  unfold search_images, search_args_of.
  destruct (search _ (embedding_service w) (ext w)) as [found x]; simpl.
  intros -> R; simpl; now rewrite R.
Qed.

(** X9. [POST /search] answers every failure of the engine and of the
    post-processor with 500 and the text of the exception, lets no
    exception through, hands on one result for each hit the engine
    returned, however many were asked for, and leaves the engine's two
    settings as they were. *)
Theorem search_images_boundary (request : SearchRequestEnhanced.t) (w : world X) :
  let found := search (search_args_of g request w) (embedding_service w) (ext w) in
  snd (search_images g request w) = mkWorld (embedding_service w) (snd found)
  /\ (forall e,
        fst found = Raise e ->
        fst (search_images g request w) = HTTPException 500 (exn_str e))
  /\ (forall hits e,
        fst found = Return hits ->
        search_result_postprocess g hits = Raise e ->
        fst (search_images g request w) = HTTPException 500 (exn_str e))
  /\ (forall hits out,
        fst found = Return hits ->
        search_result_postprocess g hits = Return out ->
        fst (search_images g request w)
        = Ok (JObj [("results", JArr (map jsonable out))])
        /\ List.length (map jsonable out) = List.length hits).
Proof.
  unfold search_images, search_args_of; cbn zeta.
  destruct (search _ (embedding_service w) (ext w)) as [found x]; simpl.
  split; [|split; [|split]].
  - now destruct (x0 <- found ;; search_result_postprocess g x0).
  - intros e ->; reflexivity.
  - intros hits e -> R; simpl; now rewrite R.
  - intros hits out -> R; simpl; rewrite R; split; [reflexivity|].
    rewrite length_map.
    apply postprocess_pairs in R.
    symmetry; eapply Forall2_length; exact R.
Qed.

(** X12. [GET /config] after [PUT /api-config]: the answer shows each field
    of the update that was truthy and the earlier value of the other,
    whether the save returned or raised; [GET /config] itself changes
    nothing. *)
Theorem get_config_after_update (update : ConfigUpdate.t) (w : world X) :
  let w' := snd (update_config update w) in
  get_config w'
  = (Ok (JObj
           [("model", JStr (get_model_name (ext w')));
            ("api_key",
             json_of_opt (if truthy (ConfigUpdate.api_key update)
                          then ConfigUpdate.api_key update
                          else EmbeddingService.api_key (embedding_service w)));
            ("base_url",
             json_of_opt (if truthy (ConfigUpdate.base_url update)
                          then ConfigUpdate.base_url update
                          else EmbeddingService.base_url (embedding_service w)))]),
     w').
Proof.
  cbn zeta; unfold get_config.
  rewrite update_config_service; unfold apply_update.
  destruct (truthy (ConfigUpdate.api_key update)),
           (truthy (ConfigUpdate.base_url update)); reflexivity.
Qed.

(** X13. Two [PUT /api-config] in a row: a field ends as the second update
    gives it when that is truthy, else as the first gives it when that is
    truthy, else as it was; so a repeated update leaves the engine's
    settings as the first one left them. *)
Theorem update_config_twice (u1 u2 : ConfigUpdate.t) (w : world X) :
  let svc := embedding_service (snd (update_config u2 (snd (update_config u1 w)))) in
  EmbeddingService.api_key svc
  = (if truthy (ConfigUpdate.api_key u2) then ConfigUpdate.api_key u2
     else if truthy (ConfigUpdate.api_key u1) then ConfigUpdate.api_key u1
     else EmbeddingService.api_key (embedding_service w))
  /\ EmbeddingService.base_url svc
     = (if truthy (ConfigUpdate.base_url u2) then ConfigUpdate.base_url u2
        else if truthy (ConfigUpdate.base_url u1) then ConfigUpdate.base_url u1
        else EmbeddingService.base_url (embedding_service w))
  /\ embedding_service (snd (update_config u1 (snd (update_config u1 w))))
     = embedding_service (snd (update_config u1 w)).
Proof.
  cbn zeta; rewrite !update_config_service; unfold apply_update.
  destruct (truthy (ConfigUpdate.api_key u1)) eqn:K1,
           (truthy (ConfigUpdate.base_url u1)) eqn:B1,
           (truthy (ConfigUpdate.api_key u2)),
           (truthy (ConfigUpdate.base_url u2));
    cbn; rewrite ?K1, ?B1; repeat split; now destruct (embedding_service w).
Qed.

(** X14. Calls of [POST /generate-cache] are not told apart: while the engine
    reports no cache, [n] calls queue [n] cache-construction tasks; once
    it reports one, no call queues anything. *)
Theorem generate_cache_calls_queue (n : nat) (background_tasks : list task)
    (w : world X) :
  generate_cache_calls n background_tasks w
  = if has_cache (ext w) then background_tasks
    else (background_tasks ++ repeat GenerateCacheTask n)%list.
Proof.
  revert background_tasks; induction n as [|n IH]; intros background_tasks; simpl.
  - rewrite app_nil_r; now destruct (has_cache (ext w)).
  - rewrite IH; unfold generate_cache.
    destruct (has_cache (ext w)); simpl; [reflexivity|].
    now rewrite <- app_assoc.
Qed.

(** X15. Start-up: whatever the engine's settings were, after the block they
    are the configured defaults and [GET /config] shows them; with
    [generate_cache] set the cache is built first, whether or not the
    engine has one, and a build that raises ends the start-up before the
    server runs. *)
Theorem startup_seeds_defaults (cfg : StartupConfig) (w : world X) :
  let w' := snd (main cfg w) in
  fst (get_config w')
  = Ok (JObj [("model", JStr (get_model_name (ext w')));
              ("api_key", json_of_opt (default_api_key cfg));
              ("base_url", json_of_opt (default_base_url cfg))])
  /\ (generate_cache_at_startup cfg = false ->
        fst (main cfg w) = Return tt /\ ext w' = ext w)
  /\ (generate_cache_at_startup cfg = true ->
        ext w' = snd (engine_generate_cache (embedding_service w') (ext w))
        /\ forall e,
             fst (engine_generate_cache (embedding_service w') (ext w)) = Raise e ->
             fst (main cfg w) = Raise e).
Proof.
  cbn zeta; unfold main.
  destruct (generate_cache_at_startup cfg).
  - destruct (engine_generate_cache _ (ext w)) as [[u|e] x] eqn:B; simpl;
      (split; [reflexivity|split; [discriminate|intros _]]);
      rewrite B; simpl; split; try reflexivity.
    + discriminate.
    + now intros e' [= ->].
  - simpl; split; [reflexivity|split; [now intros _|discriminate]].
Qed.

End HandlersFurther.

(** ** The further properties at concrete inputs *)

Section FurtherExamples.

Import Scenario.
#[local] Existing Instance posix.
#[local] Existing Instance Literal.instance.
#[local] Existing Instance ascii_repr.
#[local] Existing Instance collaborators.
#[local] Existing Instance scenario_info.
#[local] Existing Instance scenario_build.

Lemma prefix_starts_every_identifier_witness :
  truthy (url_prefix (urls strip_under_prefix)) = true
  /\ search_result_postprocess strip_under_prefix [PStr "a_b.png"; PStr "c.gif"]
     = Return [PStr "img_host/ab.png"; PStr "img_host/c.gif"]
  /\ Forall (fun o => exists rest,
               o = PStr (format_opt (url_prefix (urls strip_under_prefix)) ++ "/" ++ rest))
       [PStr "img_host/ab.png"; PStr "img_host/c.gif"].
Proof.
  split; [reflexivity|split; [reflexivity|]].
  apply (prefix_starts_every_identifier strip_under_prefix
           [PStr "a_b.png"; PStr "c.gif"]); reflexivity.
Defined.

Lemma postprocess_without_settings_is_identity_witness :
  search_result_postprocess (with_return_type "abs_path")
    [PStr "/srv/app/data/cat.png"; PPair "/srv/app/data/dog.gif" "77aa"]
  = Return [PStr "/srv/app/data/cat.png"; PPair "/srv/app/data/dog.gif" "77aa"].
Proof.
  apply (postprocess_without_settings_is_identity (with_return_type "abs_path"));
    first [discriminate | reflexivity].
Defined.

Lemma pair_outside_hash_mode_raises_witness :
  exists e,
    search_result_postprocess (with_return_type "rel_path")
      [PStr "/srv/app/data/cat.png"; PPair "/srv/app/data/dog.gif" "77aa"]
    = Raise e.
Proof.
  apply (pair_outside_hash_mode_raises (with_return_type "rel_path")
           [PStr "/srv/app/data/cat.png"; PPair "/srv/app/data/dog.gif" "77aa"]
           "/srv/app/data/dog.gif" "77aa").
  - right; left; reflexivity.
  - left; reflexivity.
Defined.

Lemma postprocess_returns_iff_accepted_witness :
  pattern_compiles strip_under_prefix
  /\ forallb raw_ascii [PStr "a_b.png"; PStr "c.gif"] = true
  /\ forallb (accepts strip_under_prefix) [PStr "a_b.png"; PStr "c.gif"] = true
  /\ ~ exists out,
         search_result_postprocess (with_return_type "sha256")
           [PPair "/srv/app/data/cat.png" "0f3a9c"; PStr "c"]
         = Return out.
Proof.
  assert (C : pattern_compiles strip_under_prefix)
    by (intros _ s; eexists; reflexivity).
  assert (C' : pattern_compiles (with_return_type "sha256"))
    by (intros T; discriminate T).
  split; [exact C|split; [reflexivity|split]].
  - apply (proj1 (postprocess_returns_iff_accepted "/srv/app" strip_under_prefix
                    [PStr "a_b.png"; PStr "c.gif"] C eq_refl)).
    eexists; reflexivity.
  - intros H.
    apply (proj1 (postprocess_returns_iff_accepted "/srv/app"
                    (with_return_type "sha256")
                    [PPair "/srv/app/data/cat.png" "0f3a9c"; PStr "c"]
                    C' eq_refl)) in H.
    discriminate H.
Defined.

Lemma hash_mode_keeps_only_extension_witness :
  exists stem ext,
    select_identifier (with_return_type "sha256")
      (PPair "/srv/app/data/cat.v2.png" "0f3a9c")
    = Return (PStr ("0f3a9c" ++ ext))
    /\ "/srv/app/data/cat.v2.png" = stem ++ ext
    /\ contains_char "/" ext = false
    /\ (ext = EmptyString
        \/ exists rest, ext = String "." rest /\ contains_char "." rest = false).
Proof.
  apply (hash_mode_keeps_only_extension "/srv/app" (with_return_type "sha256")
           "/srv/app/data/cat.v2.png" "0f3a9c").
  reflexivity.
Defined.

Lemma rel_path_mode_gives_relative_path_witness :
  select_identifier (with_return_type "rel_path") (PStr "/srv/other/x.png")
  = Return (PStr "../other/x.png")
  /\ exists r,
       PStr "../other/x.png" = PStr r
       /\ Posixpath.isabs r = false /\ nonempty r = true.
Proof.
  split; [reflexivity|].
  apply (rel_path_mode_gives_relative_path "/srv/app" (with_return_type "rel_path")
           "/srv/other/x.png" (PStr "../other/x.png"));
    reflexivity.
Defined.

Lemma rel_path_mode_below_base_dir_witness :
  select_identifier (with_return_type "rel_path") (PStr "/srv/app/data/cat.png")
  = Return (PStr "data/cat.png").
Proof.
  refine (rel_path_mode_below_base_dir "/srv/app" (with_return_type "rel_path")
            ["srv"; "app"] ["data"; "cat.png"] _ _ _ _);
    first [reflexivity | discriminate].
Defined.

Lemma search_images_boundary_witness :
  fst (search_images decorated
         {| SearchRequestEnhanced.query := "cat";
            SearchRequestEnhanced.n_results := 0%Z;
            SearchRequestEnhanced.resource_pack_uuids := [];
            SearchRequestEnhanced.ai_search := false |}
         (mkWorld service offline))
  = HTTPException 500 "Connection refused"
  /\ fst (search_images decorated
            {| SearchRequestEnhanced.query := "cat";
               SearchRequestEnhanced.n_results := 0%Z;
               SearchRequestEnhanced.resource_pack_uuids := [];
               SearchRequestEnhanced.ai_search := false |}
            (mkWorld service fresh))
     = Ok (JObj [("results",
                  JArr [JStr "https://cdn.example//srv/app/data/cat.png/https://cdn.example"])]).
Proof.
  split.
  - refine (proj1 (proj2 (search_images_boundary decorated _ (mkWorld service offline)))
              (mkExn OtherError "Connection refused") _).
    reflexivity.
  - refine (proj1 (proj2 (proj2 (proj2 (search_images_boundary decorated _
                                          (mkWorld service fresh))))
                     [PStr "/srv/app/data/cat.png"]
                     [PStr "https://cdn.example//srv/app/data/cat.png/https://cdn.example"]
                     _ _));
      reflexivity.
Defined.

Lemma startup_seeds_defaults_witness :
  fst (main {| default_api_key := Some "sk-default";
               default_base_url := None;
               generate_cache_at_startup := true |}
         (mkWorld service offline))
  = Raise (mkExn OtherError "Connection refused")
  /\ fst (main {| default_api_key := Some "sk-default";
                  default_base_url := None;
                  generate_cache_at_startup := false |}
            (mkWorld service offline))
     = Return tt.
Proof.
  split.
  - refine (proj2 (proj2 (proj2 (startup_seeds_defaults
                                   {| default_api_key := Some "sk-default";
                                      default_base_url := None;
                                      generate_cache_at_startup := true |}
                                   (mkWorld service offline))) _)
              (mkExn OtherError "Connection refused") _);
      reflexivity.
  - refine (proj1 (proj1 (proj2 (startup_seeds_defaults
                                   {| default_api_key := Some "sk-default";
                                      default_base_url := None;
                                      generate_cache_at_startup := false |}
                                   (mkWorld service offline))) _));
      reflexivity.
Defined.

End FurtherExamples.

(** ** The strip step with the literal engine, further *)

Section LiteralFurther.

Context {os_path : OsPath} {py_repr : Repr}.
#[local] Existing Instance Literal.instance.
Variable g : Globals.

Lemma select_without_pattern (v : pyval) :
  select_identifier (without_pattern g) v = select_identifier g v.
Proof.
  reflexivity.
Qed.

(** X8. A strip pattern without metacharacters changes nothing where it has
    no match: on a list whose selected identifiers are strings without an
    occurrence of the pattern, the post-processor returns what it returns
    with no pattern configured. *)
Theorem strip_without_match_changes_nothing (pattern : string)
    (results : list pyval) :
  path_replace_regex (urls g) = Some pattern ->
  Literal.is_literal pattern = true ->
  Forall (fun v => exists id,
            select_identifier g v = Return (PStr id)
            /\ re_search pattern id = Return false) results ->
  search_result_postprocess g results
  = search_result_postprocess (without_pattern g) results.
Proof.
  intros P _ F.
  rewrite !postprocess_as_map.
  induction F as [|v rest (id & S & M) _ IH]; [reflexivity|].
  cbn [map_outcome]; rewrite IH; f_equal.
  unfold loop_body; rewrite select_without_pattern, S; cbn [bind].
  unfold strip_regex; cbn [without_pattern urls path_replace_regex truthy].
  rewrite P.
  injection M as M.
  destruct pattern as [|c pattern]; [reflexivity|].
  cbn [truthy format_opt re_sub Literal.instance Literal.sub bind].
  now rewrite (sub_scan_match_free _ _ M).
Qed.

End LiteralFurther.

(** ** Hash mode through [POST /search] *)

Section HashModeSearch.

Context {os_path : OsPath} {re : Regex} {py_repr : Repr}.
Context {X : Type} {collab : Collaborators X}.
Variable g : Globals.

Lemma loop_body_on_pair_in_hash_mode (path hash : string) :
  return_type (urls g) = "sha256" ->
  pattern_compiles g ->
  exists s, loop_body g (PPair path hash) = Return (PStr s).
Proof.
  intros Rt C.
  unfold loop_body, select_identifier, strip_regex, add_prefix, add_postfix.
  rewrite Rt; cbn [String.eqb Ascii.eqb Bool.eqb bind].
  destruct (truthy (path_replace_regex (urls g))) eqn:T.
  - destruct (C T (hash ++ snd (splitext (basename path)))) as (r & ->).
    cbn [bind].
    destruct (truthy (url_prefix (urls g)));
      destruct (truthy (url_postfix (urls g)));
      cbn; try destruct (negb (endswith _ _)); eauto.
  - cbn [bind].
    destruct (truthy (url_prefix (urls g)));
      destruct (truthy (url_postfix (urls g)));
      cbn; try destruct (negb (endswith _ _)); eauto.
Qed.

(** X10. With [sha256] configured, [POST /search] asks the engine for
    hashes, and when the engine answers with pairs the response is 200
    with one string for each pair: no step of the post-processor raises on
    them, whatever prefix and postfix are set and whatever pattern, as
    long as [re.sub] accepts it. *)
Theorem hash_mode_search_succeeds (request : SearchRequestEnhanced.t)
    (w : world X) (hits : list pyval) :
  return_type (urls g) = "sha256" ->
  pattern_compiles g ->
  fst (search (search_args_of g request w) (embedding_service w) (ext w))
  = Return hits ->
  Forall (fun v => is_str v = false) hits ->
  arg_return_type (search_args_of g request w) = "hash"
  /\ exists items,
       fst (search_images g request w) = Ok (JObj [("results", JArr items)])
       /\ List.length items = List.length hits
       /\ Forall (fun j => exists s, j = JStr s) items.
Proof.
  intros Rt C Found Pairs.
  split; [unfold search_args_of; cbn; now rewrite Rt|].
  assert (R : exists out,
            map_outcome (loop_body g) hits = Return out
            /\ List.length out = List.length hits
            /\ Forall (fun o => is_str o = true) out).
  { clear Found; induction Pairs as [|v rest Pv _ IH].
    - exists []; repeat split; constructor.
    - destruct IH as (out & E & L & S).
      destruct v as [?|path hash]; [discriminate|].
      destruct (loop_body_on_pair_in_hash_mode path hash Rt C) as (s & Es).
      exists (PStr s :: out); cbn [map_outcome].
      rewrite Es, E; cbn; repeat split; [now rewrite L | now constructor]. }
  destruct R as (out & E & L & S).
  rewrite <- postprocess_as_map in E.
  exists (map jsonable out).
  pose proof (search_images_returns g request w hits out Found E) as H.
  split; [exact H|split; [now rewrite length_map|]].
  clear E L H; induction S as [|o out So _ IH]; constructor; [|exact IH].
  destruct o; [eexists; reflexivity | discriminate].
Qed.

End HashModeSearch.


Section LiteralFurtherExamples.

Import Scenario.
#[local] Existing Instance posix.
#[local] Existing Instance Literal.instance.
#[local] Existing Instance ascii_repr.
#[local] Existing Instance collaborators.

Lemma strip_without_match_changes_nothing_witness :
  search_result_postprocess strip_ab [PStr "cat.png"; PStr "b_a.gif"]
  = search_result_postprocess (without_pattern strip_ab)
      [PStr "cat.png"; PStr "b_a.gif"].
Proof.
  apply (strip_without_match_changes_nothing strip_ab "ab"
           [PStr "cat.png"; PStr "b_a.gif"]); try reflexivity.
  repeat constructor; eexists; split; reflexivity.
Defined.

Lemma hash_mode_search_succeeds_witness :
  fst (search_images (with_return_type "sha256")
         {| SearchRequestEnhanced.query := "cat";
            SearchRequestEnhanced.n_results := 5%Z;
            SearchRequestEnhanced.resource_pack_uuids := [];
            SearchRequestEnhanced.ai_search := false |}
         (mkWorld service scenario_hashed))
  = Ok (JObj [("results", JArr [JStr "0f3a9c.png"; JStr "77aa01"])])
  /\ (arg_return_type
        (search_args_of (with_return_type "sha256")
           {| SearchRequestEnhanced.query := "cat";
              SearchRequestEnhanced.n_results := 5%Z;
              SearchRequestEnhanced.resource_pack_uuids := [];
              SearchRequestEnhanced.ai_search := false |}
           (mkWorld service scenario_hashed))
      = "hash"
      /\ exists items,
           fst (search_images (with_return_type "sha256")
                  {| SearchRequestEnhanced.query := "cat";
                     SearchRequestEnhanced.n_results := 5%Z;
                     SearchRequestEnhanced.resource_pack_uuids := [];
                     SearchRequestEnhanced.ai_search := false |}
                  (mkWorld service scenario_hashed))
           = Ok (JObj [("results", JArr items)])
           /\ List.length items = 2
           /\ Forall (fun j => exists s, j = JStr s) items).
Proof.
  split; [reflexivity|].
  refine (hash_mode_search_succeeds (with_return_type "sha256") _
            (mkWorld service scenario_hashed)
            [PPair "/srv/app/data/cat.png" "0f3a9c";
             PPair "/srv/app/data/README" "77aa01"] _ _ _ _);
    [reflexivity | intros T; discriminate T | reflexivity | repeat constructor].
Defined.

End LiteralFurtherExamples.
